(** * custom-ids-ml: flow tracking, feature extraction, signature rules and
    the anomaly engine

    A shallow embedding of [src/feature_extractor.py], [src/rules_engine.py]
    and [src/ml_detection.py], with the properties of the flow key, the flow
    table, the rule matcher and the training corpus proved over it.

    Conventions of the embedding.
    - A Python [int] is a [Z].  A [datetime] is a [Z] counting microseconds
      (the resolution of [datetime]); the difference of two of them is a
      [timedelta], again a [Z] of microseconds.
    - A Python [float] is the rational it stands for: [total_seconds()] of a
      [timedelta] of [d] microseconds is [d / 10^6] in [Q].  Square roots are
      not rationals: where the source calls [np.std] the model keeps the
      population variance, whose root the source's value is.
    - A dictionary with optional keys is a record of [option] fields; the
      flow table (a [defaultdict] keyed by the flow key) is a [gmap].
    - A call that can raise returns an [outcome]; the state it had already
      changed when it raised is returned next to it. *)

From Stdlib Require Import ZArith QArith Qabs Qminmax.
From Stdlib Require Import String Ascii List DecimalString Lia.
From stdpp Require Import gmap strings list fin_maps.

Local Open Scope Z_scope.

(** ** Python values shared by the stages *)

(** What a call leaves behind: a value, or the name of the exception. *)
Inductive outcome (A : Type) : Type :=
| Returned (a : A)
| Raised (exn : string).
Arguments Returned {A} a.
Arguments Raised {A} exn.

Module Py.

(** Truth value of an optional string: [None] and [''] are false. *)
Definition truthy_str (v : option string) : bool :=
  match v with
  | Some s => negb (String.eqb s "")
  | None => false
  end.

(** Truth value of an optional integer: [None] and [0] are false. *)
Definition truthy_int (v : option Z) : bool :=
  match v with
  | Some n => negb (n =? 0)
  | None => false
  end.

(** [str(n)] for an integer. *)
Definition str (n : Z) : string := NilZero.string_of_int (Z.to_int n).

(** [timedelta.total_seconds()]: microseconds over [10**6]. *)
Definition total_seconds (d : Z) : Q := d # 1000000.

(** [x > y] on numbers. *)
Definition Qgtb (x y : Q) : bool := negb (Qle_bool x y).

(** Insertion of [x] into a sorted list, before the first element that is
    not smaller than it. *)
Fixpoint insert_sorted (x : string) (l : list string) : list string :=
  match l with
  | [] => [x]
  | y :: l' => if String.ltb y x then y :: insert_sorted x l' else x :: l
  end.

(** [sorted(l)] on strings: a stable sort by [<], which compares strings
    character by character. *)
Definition sorted (l : list string) : list string :=
  foldr insert_sorted [] l.

(** [sum(l)] and [len(l)] as numbers. *)
Definition sumZ (l : list Z) : Z := foldr Z.add 0 l.
Definition sumQ (l : list Q) : Q := foldr Qplus (0 # 1)%Q l.
Definition len {A} (l : list A) : Z := Z.of_nat (List.length l).

(** [l[start:]]: a negative [start] counts from the end, and both ends are
    clipped to the list. *)
Definition slice_from {A} (l : list A) (start : Z) : list A :=
  drop (Z.to_nat (if start <? 0 then Z.max (len l + start) 0
                  else Z.min start (len l))) l.

End Py.

(** [numpy] reductions over a one-dimensional array. *)
Module Np.

(** [np.mean] of integers and of floats (the caller never passes an empty
    array where the value is used). *)
Definition meanZ (l : list Z) : Q :=
  (inject_Z (Py.sumZ l) / inject_Z (Py.len l))%Q.
Definition meanQ (l : list Q) : Q := (Py.sumQ l / inject_Z (Py.len l))%Q.

(** Population variance (denominator [N]): [np.std] is its square root. *)
Definition varQ (l : list Q) : Q :=
  let m := meanQ l in meanQ (map (fun x => (x - m) * (x - m))%Q l).
Definition varZ (l : list Z) : Q := varQ (map inject_Z l).

(** [np.min] and [np.max]: [ValueError] on an empty array. *)
Definition min (l : list Z) : outcome Z :=
  match l with
  | [] => Raised "ValueError"
  | x :: l' => Returned (foldl Z.min x l')
  end.
Definition max (l : list Z) : outcome Z :=
  match l with
  | [] => Raised "ValueError"
  | x :: l' => Returned (foldl Z.max x l')
  end.

End Np.

(** The record [PacketCapture._extract_basic_features] builds for a packet.
    [timestamp] is written there by [datetime.now().isoformat()] and read
    back by [datetime.fromisoformat]: the record holds the [datetime].
    [raw_packet] is the captured packet (an object that is true whenever
    it is there); of it the stages read only whether it has a [Raw] layer
    and that layer's [load], kept here as the text
    [load.decode('utf-8', errors='ignore')] gives. *)
Module Packet.

Record raw := { raw_load : option string }.

Record info := {
  timestamp : Z;
  src_ip : option string;
  dst_ip : option string;
  protocol : option Z;
  length : Z;
  raw_packet : option raw
}.

End Packet.

(** ** The packet capture ([packet_capture.py]) *)

(** A captured packet, as far as the stages look at it: the addresses and
    the protocol of its [IP] layer when it has one, the decoded [load] of
    its [Raw] layer when it has one, and [len(packet)]. *)
Module Scapy.

Record ip_layer := { src : string; dst : string; proto : Z }.

Record packet := {
  ip : option ip_layer;
  raw : option string;
  size : Z
}.

End Scapy.

Module PacketCapture.

(** [_extract_basic_features], with [datetime.now()] as [now]. *)
Definition _extract_basic_features (now : Z) (packet : Scapy.packet)
  : Packet.info :=
  {| Packet.timestamp := now;
     Packet.src_ip := Scapy.src <$> Scapy.ip packet;
     Packet.dst_ip := Scapy.dst <$> Scapy.ip packet;
     Packet.protocol := Scapy.proto <$> Scapy.ip packet;
     Packet.length := Scapy.size packet;
     Packet.raw_packet := Some {| Packet.raw_load := Scapy.raw packet |} |}.

(** [_process_packet]: the record is put on the packet queue. *)
Definition _process_packet (now : Z) (packet : Scapy.packet)
    (packet_queue : list Packet.info) : list Packet.info :=
  packet_queue ++ [_extract_basic_features now packet].

End PacketCapture.

(** ** The flow tracker and the feature extractor ([feature_extractor.py]) *)

Module Flow.

(** One entry of [flow_stats]. *)
Record stats := {
  packet_count : Z;
  byte_count : Z;
  start_time : option Z;
  last_time : option Z;
  intervals : list Q;
  packet_sizes : list Z
}.

(** The [defaultdict] factory. *)
Definition fresh : stats :=
  {| packet_count := 0; byte_count := 0; start_time := None;
     last_time := None; intervals := []; packet_sizes := [] |}.

End Flow.

Module Features.

(** The dictionary [_extract_flow_features] returns.  [var_packet_size]
    and [var_interval] are the squares of the source's [std_packet_size]
    and [std_interval]. *)
Record t := {
  flow_key : string;
  timestamp : Z;
  packet_count : Z;
  byte_count : Z;
  duration : Q;
  packets_per_second : Q;
  bytes_per_second : Q;
  mean_packet_size : Q;
  var_packet_size : Q;
  min_packet_size : Z;
  max_packet_size : Z;
  mean_interval : Q;
  var_interval : Q
}.

End Features.

Module FeatureExtractor.

(** The flow key of a packet with the given addresses and protocol, when
    both addresses are present (lines 49-53). *)
Definition flow_key (src dst : option string) (proto : option Z)
  : option string :=
  if Py.truthy_str src && Py.truthy_str dst then
    let ips := Py.sorted [default "" src; default "" dst] in
    let protocol := if Py.truthy_int proto then default 0 proto else 0 in
    Some (nth 0 ips "" +:+ "_" +:+ nth 1 ips "" +:+ "_" +:+ Py.str protocol)
  else None.

(** The flow key of a packet record. *)
Definition key_of (p : Packet.info) : option string :=
  flow_key (Packet.src_ip p) (Packet.dst_ip p) (Packet.protocol p).

(** [_update_flow_stats]: the table after the call, and how it ended. *)
Definition _update_flow_stats (packet_info : Packet.info)
    (flow_stats : gmap string Flow.stats)
  : gmap string Flow.stats * outcome unit :=
  match flow_key (Packet.src_ip packet_info) (Packet.dst_ip packet_info)
                 (Packet.protocol packet_info) with
  | None => (flow_stats, Returned tt)
  | Some key =>
    (* [self.flow_stats[flow_key]] creates the entry when it is missing *)
    let flow := default Flow.fresh (flow_stats !! key) in
    let flow_stats := <[key := flow]> flow_stats in
    let timestamp := Packet.timestamp packet_info in
    let started :=
      match Flow.start_time flow with
      | None => Returned (Some timestamp, Flow.intervals flow)
      | Some start =>
        match Flow.last_time flow with
        | None => Raised "TypeError"
        | Some last =>
          let interval := Py.total_seconds (timestamp - last) in
          Returned (Some start, Flow.intervals flow ++ [interval])
        end
      end in
    match started with
    | Raised exn => (flow_stats, Raised exn)
    | Returned (start, intervals) =>
      (<[key := {| Flow.packet_count := Flow.packet_count flow + 1;
                   Flow.byte_count :=
                     Flow.byte_count flow + Packet.length packet_info;
                   Flow.start_time := start;
                   Flow.last_time := Some timestamp;
                   Flow.intervals := intervals;
                   Flow.packet_sizes :=
                     Flow.packet_sizes flow ++ [Packet.length packet_info]
                |}]> flow_stats,
       Returned tt)
    end
  end.

(** [_extract_flow_features]: [None] below two packets, else the feature
    dictionary.  The subtraction of the times raises [TypeError] when one of
    them is [None], and [np.min] raises [ValueError] on an empty size list
    (after [np.mean] and [np.std] gave [nan] for it). *)
Definition _extract_flow_features (flow_key : string) (stats : Flow.stats)
  : outcome (option Features.t) :=
  if Flow.packet_count stats <? 2 then Returned None
  else
    let '(mean_interval, var_interval) :=
      if 0 <? Py.len (Flow.intervals stats)
      then (Np.meanQ (Flow.intervals stats), Np.varQ (Flow.intervals stats))
      else (0 # 1, 0 # 1)%Q in
    match Flow.last_time stats, Flow.start_time stats with
    | Some last, Some start =>
      let duration := Py.total_seconds (last - start) in
      let '(packets_per_second, bytes_per_second) :=
        if Py.Qgtb duration (0 # 1)
        then ((inject_Z (Flow.packet_count stats) / duration)%Q,
              (inject_Z (Flow.byte_count stats) / duration)%Q)
        else (0 # 1, 0 # 1)%Q in
      match Np.min (Flow.packet_sizes stats),
            Np.max (Flow.packet_sizes stats) with
      | Returned smallest, Returned largest =>
        Returned (Some
          {| Features.flow_key := flow_key;
             Features.timestamp := last;
             Features.packet_count := Flow.packet_count stats;
             Features.byte_count := Flow.byte_count stats;
             Features.duration := duration;
             Features.packets_per_second := packets_per_second;
             Features.bytes_per_second := bytes_per_second;
             Features.mean_packet_size := Np.meanZ (Flow.packet_sizes stats);
             Features.var_packet_size := Np.varZ (Flow.packet_sizes stats);
             Features.min_packet_size := smallest;
             Features.max_packet_size := largest;
             Features.mean_interval := mean_interval;
             Features.var_interval := var_interval |})
      | Raised exn, _ | _, Raised exn => Raised exn
      end
    | _, _ => Raised "TypeError"
    end.

(** The minimum packet count of an emitted flow (line 80). *)
Definition min_packets : Z := 5.

(** One round of the loop of [_generate_features] over the snapshot
    [list(self.flow_stats.items())]: the table and the batch so far, or the
    exception that has ended the loop. *)
Definition expire_flow (current_time window_size : Z)
    (acc : gmap string Flow.stats * outcome (list Features.t))
    (item : string * Flow.stats)
  : gmap string Flow.stats * outcome (list Features.t) :=
  match acc with
  | (_, Raised _) => acc
  | (flow_stats, Returned features_batch) =>
    let '(flow_key, stats) := item in
    match Flow.last_time stats with
    | None => acc
    | Some last =>
      if Flow.packet_count stats <? min_packets then acc
      else if Py.Qgtb (Py.total_seconds (current_time - last))
                      (inject_Z window_size)
      then
        match _extract_flow_features flow_key stats with
        | Raised exn => (flow_stats, Raised exn)
        | Returned features =>
          (delete flow_key flow_stats,
           Returned (features_batch ++ option_list features))
        end
      else acc
    end
  end.

(** [_generate_features], with [datetime.now()] as [current_time]: the
    table after the call and the batch collected, which the caller puts on
    the feature queue when it is not empty.  The snapshot is walked in the
    order of [map_to_list]; no statement below depends on that order. *)
Definition _generate_features (current_time window_size : Z)
    (flow_stats : gmap string Flow.stats)
  : gmap string Flow.stats * outcome (list Features.t) :=
  foldl (expire_flow current_time window_size)
        (flow_stats, Returned []) (map_to_list flow_stats).

(** The extractor: its window, its flow table, and the batches it has put
    on the feature queue, oldest first. *)
Record state := {
  window_size : Z;
  flow_stats : gmap string Flow.stats;
  feature_queue : list (list Features.t)
}.

(** [FeatureExtractor(packet_queue, feature_queue)] with the default
    window of 60 seconds. *)
Definition init : state :=
  {| window_size := 60; flow_stats := ∅; feature_queue := [] |}.

(** One round of [_process_queue] for a packet taken from the queue at time
    [now]: an exception of either call is caught and printed, and what the
    call had changed stays. *)
Definition process_packet (now : Z) (self : state)
    (packet_info : Packet.info) : state :=
  match _update_flow_stats packet_info (flow_stats self) with
  | (table, Raised _) =>
    {| window_size := window_size self; flow_stats := table;
       feature_queue := feature_queue self |}
  | (table, Returned _) =>
    match _generate_features now (window_size self) table with
    | (table', Returned (f :: batch)) =>
      {| window_size := window_size self; flow_stats := table';
         feature_queue := feature_queue self ++ [f :: batch] |}
    | (table', _) =>
      {| window_size := window_size self; flow_stats := table';
         feature_queue := feature_queue self |}
    end
  end.

(** [_process_queue] over the packets taken from the queue, each with the
    time at which it was taken. *)
Definition _process_queue (self : state)
    (arrivals : list (Z * Packet.info)) : state :=
  foldl (fun self arrival => process_packet arrival.1 self arrival.2)
        self arrivals.

(** Packet ingestions and drains in any order, on a flow table. *)
Inductive event :=
| Ingest (packet_info : Packet.info)
| Drain (current_time : Z).

Definition step (window : Z) (table : gmap string Flow.stats) (e : event)
  : gmap string Flow.stats :=
  match e with
  | Ingest packet_info => fst (_update_flow_stats packet_info table)
  | Drain current_time => fst (_generate_features current_time window table)
  end.

Definition run (window : Z) (events : list event)
  : gmap string Flow.stats := foldl (step window) ∅ events.

End FeatureExtractor.

(** ** Alerts *)

Inductive alert_type := SIGNATURE | ANOMALY.

(** ** The signature rule engine ([rules_engine.py]) *)

Module Rule.

(** The value of a rule's [pattern] key, with what
    [re.compile(pattern, re.IGNORECASE)] does with it: the regular
    expression library is not part of the repository, so a pattern carries
    its outcome, [None] when compilation raises [re.error] and else the
    [search] of the compiled pattern as a test on the decoded payload. *)
Record source_pattern := {
  text : string;
  compile : option (string -> bool)
}.

(** One rule: the dictionary read from the rule file, every key optional,
    and the [compiled_pattern] key that loading adds. *)
Record t := {
  id : option string;
  src_ip : option string;
  dst_ip : option string;
  protocol : option Z;
  pattern : option source_pattern;
  confidence : option Q;
  description : option string;
  compiled_pattern : option (string -> bool)
}.

(** [rule['compiled_pattern'] = c]. *)
Definition with_compiled (rule : t) (c : string -> bool) : t :=
  {| id := id rule; src_ip := src_ip rule; dst_ip := dst_ip rule;
     protocol := protocol rule; pattern := pattern rule;
     confidence := confidence rule; description := description rule;
     compiled_pattern := Some c |}.

End Rule.

Module SignatureAlert.

Record t := {
  timestamp : Z;
  rule_id : string;
  kind : alert_type;
  confidence : Q;
  description : string;
  src_ip : option string;
  dst_ip : option string;
  protocol : option Z
}.

End SignatureAlert.

Module RulesEngine.

(** What [open] and [yaml.safe_load] give for a rule file: an exception, the
    empty document ([None]), or the sequence of rule definitions. *)
Inductive rules_file :=
| Unreadable
| Null
| Sequence (rule_defs : list Rule.t).

(** Lines 37-38 for one rule: the rule to append, or [re.error]. *)
Definition compiled (rule : Rule.t) : outcome Rule.t :=
  match Rule.pattern rule with
  | None => Returned rule
  | Some p =>
    match Rule.compile p with
    | Some c => Returned (Rule.with_compiled rule c)
    | None => Raised "re.error"
    end
  end.

(** The loop of [load_rules] (lines 35-39) from the rules appended so far:
    the exception of a rule leaves the loop, and the [except] around the
    whole of [load_rules] ends the call with the rules appended before. *)
Fixpoint load_loop (rule_defs : list Rule.t) (rules : list Rule.t)
  : list Rule.t * outcome unit :=
  match rule_defs with
  | [] => (rules, Returned tt)
  | rule :: rest =>
    match compiled rule with
    | Raised exn => (rules, Raised exn)
    | Returned rule' => load_loop rest (rules ++ [rule'])
    end
  end.

(** [load_rules]: the rule set after the call (the call itself never
    raises), and whether the [except] branch was taken. *)
Definition load_rules (file : rules_file) (rules : list Rule.t)
  : list Rule.t * outcome unit :=
  match file with
  | Unreadable => (rules, Raised "OSError")
  | Null => ([], Raised "TypeError")
  | Sequence rule_defs => load_loop rule_defs []
  end.

(** [RulesEngine(packet_queue, alert_queue, rules_file)]: the rule set of
    the new engine; [None] stands for no file name or a file that does not
    exist. *)
Definition new (file : option rules_file) : list Rule.t :=
  match file with
  | Some f => fst (load_rules f [])
  | None => []
  end.

(** [add_rule]: the rule set after the call, or [re.error]. *)
Definition add_rule (rule : Rule.t) (rules : list Rule.t)
  : outcome (list Rule.t) :=
  match compiled rule with
  | Raised exn => Raised exn
  | Returned rule' => Returned (rules ++ [rule'])
  end.

(** The alert of lines 100-109. *)
Definition alert (packet_info : Packet.info) (rule : Rule.t)
  : SignatureAlert.t :=
  {| SignatureAlert.timestamp := Packet.timestamp packet_info;
     SignatureAlert.rule_id := default "unknown" (Rule.id rule);
     SignatureAlert.kind := SIGNATURE;
     SignatureAlert.confidence := default (1 # 1)%Q (Rule.confidence rule);
     SignatureAlert.description :=
       default "Signature match" (Rule.description rule);
     SignatureAlert.src_ip := Packet.src_ip packet_info;
     SignatureAlert.dst_ip := Packet.dst_ip packet_info;
     SignatureAlert.protocol := Packet.protocol packet_info |}.

(** The body of the loop of [_check_rules] (lines 70-111) for one rule:
    [None] when the rule is left by [continue] or its last test fails, else
    the alert put on the alert queue. *)
Definition check_rule (packet_info : Packet.info) (raw_packet : Packet.raw)
    (rule : Rule.t) : option SignatureAlert.t :=
  if bool_decide (is_Some (Rule.src_ip rule))
     && Py.truthy_str (Packet.src_ip packet_info)
     && negb (bool_decide (Rule.src_ip rule = Packet.src_ip packet_info))
  then None
  else if bool_decide (is_Some (Rule.dst_ip rule))
     && Py.truthy_str (Packet.dst_ip packet_info)
     && negb (bool_decide (Rule.dst_ip rule = Packet.dst_ip packet_info))
  then None
  else if bool_decide (is_Some (Rule.protocol rule))
     && Py.truthy_int (Packet.protocol packet_info)
     && negb (bool_decide (Rule.protocol rule = Packet.protocol packet_info))
  then None
  else
    let searched :=
      match Rule.compiled_pattern rule, Packet.raw_load raw_packet with
      | Some search, Some payload_str =>
        if search payload_str then Some true else None
      | _, _ => Some false
      end in
    match searched with
    | None => None
    | Some matched =>
      if matched || negb (bool_decide (is_Some (Rule.compiled_pattern rule)))
      then Some (alert packet_info rule)
      else None
    end.

(** [_check_rules]: the alerts put on the alert queue, in order.  A packet
    record without a raw packet is left at line 67. *)
Definition _check_rules (rules : list Rule.t) (packet_info : Packet.info)
  : list SignatureAlert.t :=
  match Packet.raw_packet packet_info with
  | None => []
  | Some raw_packet => omap (check_rule packet_info raw_packet) rules
  end.

End RulesEngine.

(** ** The anomaly detection engine ([ml_detection.py]) *)

Module AnomalyAlert.

Record t := {
  timestamp : Z;
  flow_key : string;
  kind : alert_type;
  confidence : Q;
  description : string;
  features : Features.t
}.

End AnomalyAlert.

Module MLDetectionEngine.

(** The object in [self.model]: the isolation forest [_train_model] fits on
    the training data (with a fixed [random_state], so the data determine
    it), or a model [joblib] loaded from a path. *)
Inductive isolation_forest :=
| Fitted (training_data : list Features.t)
| Loaded (model_path : string).

(** The object in [self.scaler], likewise. *)
Inductive standard_scaler :=
| FittedScaler (training_data : list Features.t)
| LoadedScaler (scaler_path : string).

Record engine := {
  learning_mode : bool;
  model : option isolation_forest;
  scaler : option standard_scaler;
  training_data : list Features.t;
  max_training_samples : Z
}.

(** [MLDetectionEngine(feature_queue, alert_queue, model_path, learning_mode)]
    when no model is stored at [model_path]. *)
Definition init (learning : bool) : engine :=
  {| learning_mode := learning; model := None; scaler := None;
     training_data := []; max_training_samples := 10000 |}.

(** The corpus size from which a model is fitted (line 63). *)
Definition min_training_samples : Z := 1000.

(** [_train_model]: scaler and forest fitted on the training data.  Fitting
    finite numeric columns does not raise; saving the model is not part of
    the state. *)
Definition _train_model (self : engine) : engine :=
  {| learning_mode := learning_mode self;
     model := Some (Fitted (training_data self));
     scaler := Some (FittedScaler (training_data self));
     training_data := training_data self;
     max_training_samples := max_training_samples self |}.

(** Lines 59-64 of [_detection_loop]: the batch joins the training data
    while these are below [max_training_samples], and a model is fitted. *)
Definition store (self : engine) (features_batch : list Features.t)
  : engine :=
  if Py.len (training_data self) <? max_training_samples self then
    let self' :=
      {| learning_mode := learning_mode self;
         model := model self;
         scaler := scaler self;
         training_data := training_data self ++ features_batch;
         max_training_samples := max_training_samples self |} in
    if (min_training_samples <=? Py.len (training_data self'))
       && (bool_decide (model self' = None) || learning_mode self')
    then _train_model self'
    else self'
  else self.

Section Scoring.

(** What the fitted model answers for a feature vector scaled by the
    scaler: [predict] gives -1 for an outlier and 1 otherwise,
    [decision_function] the anomaly score. *)
Variable predict : isolation_forest -> standard_scaler -> Features.t -> Z.
Variable decision_function :
  isolation_forest -> standard_scaler -> Features.t -> Q.

(** [_detect_anomalies]: the alerts put on the alert queue.  Without a
    scaler the call raises at line 119 and the [except] ends it. *)
Definition _detect_anomalies (self : engine) (df : list Features.t)
  : list AnomalyAlert.t :=
  match model self, scaler self with
  | Some m, Some s =>
    omap (fun row =>
            if predict m s row =? -1 then
              Some {| AnomalyAlert.timestamp := Features.timestamp row;
                      AnomalyAlert.flow_key := Features.flow_key row;
                      AnomalyAlert.kind := ANOMALY;
                      AnomalyAlert.confidence :=
                        Qabs (decision_function m s row);
                      AnomalyAlert.description :=
                        "Anomalous network flow detected";
                      AnomalyAlert.features := row |}
            else None) df
  | _, _ => []
  end.

(** One round of [_detection_loop] for a batch taken from the feature
    queue: the engine after it and the alerts it put on the alert queue. *)
Definition detection_step (self : engine) (features_batch : list Features.t)
  : engine * list AnomalyAlert.t :=
  match features_batch with
  | [] => (self, [])
  | _ :: _ =>
    let self' := store self features_batch in
    (self',
     if bool_decide (is_Some (model self')) && negb (learning_mode self')
     then _detect_anomalies self' features_batch
     else [])
  end.

(** The engine after a sequence of batches, oldest first. *)
Definition _detection_loop (self : engine)
    (batches : list (list Features.t)) : engine :=
  foldl (fun e batch => fst (detection_step e batch)) self batches.

End Scoring.

(** [MLDetectionEngine(...)] in general: [stored] is the path of a model
    file that exists and that [joblib] loads.  [_load_model] also loads
    the scaler stored beside it, and line 18 then sets [self.scaler] to
    [None]. *)
Definition new (stored : option string) (learning : bool) : engine :=
  {| learning_mode := learning; model := Loaded <$> stored; scaler := None;
     training_data := []; max_training_samples := 10000 |}.

Section Alerts.

Variable predict : isolation_forest -> standard_scaler -> Features.t -> Z.
Variable decision_function :
  isolation_forest -> standard_scaler -> Features.t -> Q.

(** The engine after a sequence of batches, with all the alerts put on the
    alert queue on the way, oldest first. *)
Definition detection_run (self : engine) (batches : list (list Features.t))
  : engine * list AnomalyAlert.t :=
  foldl (fun acc batch =>
           let step := detection_step predict decision_function acc.1 batch in
           (step.1, acc.2 ++ step.2))
        (self, []) batches.

End Alerts.

End MLDetectionEngine.

(** ** The query service ([api_service.py]) *)

Module IDSApiService.

Section Alerts.

(** The alerts are dictionaries of any shape.  Of an alert the service
    reads [a.get('alert_type')] and [a.get('timestamp', '')], a text;
    [fromisoformat] is [datetime.fromisoformat], [None] where it raises
    [ValueError], and the times it reads are all without a time zone, as
    the pipeline writes them. *)
Variable alert : Type.
Variable alert_type_of : alert -> option string.
Variable timestamp_of : alert -> string.
Variable fromisoformat : string -> option Z.

Definition max_alerts : Z := 1000.

(** One round of [_collect_alerts] for an alert taken from the queue. *)
Definition collect (recent_alerts : list alert) (a : alert) : list alert :=
  let recent_alerts := recent_alerts ++ [a] in
  if max_alerts <? Py.len recent_alerts
  then Py.slice_from recent_alerts (- max_alerts)
  else recent_alerts.

Definition _collect_alerts (recent_alerts : list alert)
    (alert_queue : list alert) : list alert :=
  foldl collect recent_alerts alert_queue.

(** The list comprehension of lines 45-48: [None] when [fromisoformat]
    raises for the timestamp of an alert. *)
Fixpoint not_before (since_dt : Z) (alerts : list alert)
  : option (list alert) :=
  match alerts with
  | [] => Some []
  | a :: rest =>
    match fromisoformat (timestamp_of a) with
    | None => None
    | Some t =>
      match not_before since_dt rest with
      | None => None
      | Some kept => Some (if since_dt <=? t then a :: kept else kept)
      end
    end
  end.

(** The body of the answer to [GET /api/alerts]. *)
Record answer := { alerts : list alert; total : Z }.

(** [get_alerts]: [alert_type] and [since] are the query parameters [type]
    and [since] when given, [limit] is the parameter [limit] when it is
    given and is an integer. *)
Definition get_alerts (recent_alerts : list alert)
    (alert_type : option string) (limit : option Z) (since : option string)
  : answer :=
  let limit := default 100 limit in
  let filtered_alerts := recent_alerts in
  let filtered_alerts :=
    if Py.truthy_str alert_type
    then filter (fun a => alert_type_of a = alert_type) filtered_alerts
    else filtered_alerts in
  let filtered_alerts :=
    if Py.truthy_str since then
      match fromisoformat (default "" since) with
      | None => filtered_alerts
      | Some since_dt =>
        default filtered_alerts (not_before since_dt filtered_alerts)
      end
    else filtered_alerts in
  {| alerts := Py.slice_from filtered_alerts (- limit);
     total := Py.len filtered_alerts |}.

(** The alerts that pass the filters of a query, before the limit. *)
Definition selected (recent_alerts : list alert) (alert_type : option string)
    (since : option string) : list alert :=
  alerts (get_alerts recent_alerts alert_type (Some 0) since).

End Alerts.

End IDSApiService.

(** ** Predicates of the statements *)

Module FlowInv.

Import FeatureExtractor.

(** The counts of a flow agree with its sequences. *)
Definition consistent (flow : Flow.stats) : Prop :=
  Flow.packet_count flow = Py.len (Flow.packet_sizes flow)
  /\ Flow.byte_count flow = Py.sumZ (Flow.packet_sizes flow)
  /\ Py.len (Flow.intervals flow) = Flow.packet_count flow - 1.

(** The invariant of an entry of the flow table: it is consistent and has
    both its times. *)
Definition tracked (flow : Flow.stats) : Prop :=
  is_Some (Flow.start_time flow) /\ is_Some (Flow.last_time flow)
  /\ consistent flow.

(** What a round of the expiry loop keeps true for one key [key], when the
    round is not for [key] or is for an immature flow: the entry of [key]
    stays as it is, and no feature vector of the batch is for [key]. *)
Definition untouched (key : string) (flow : Flow.stats)
    (acc : gmap string Flow.stats * outcome (list Features.t)) : Prop :=
  fst acc !! key = Some flow
  /\ forall batch, snd acc = Returned batch ->
       Forall (fun f => Features.flow_key f <> key) batch.

End FlowInv.

Module RuleFilter.

Import RulesEngine.

(** A filter of a rule lets a value of the packet through: the rule has no
    such key, or the packet has no such value, or the two are equal. *)
Definition passes {A : Type} (truthy : option A -> bool)
    (wanted actual : option A) : Prop :=
  wanted = None \/ truthy actual = false \/ wanted = actual.

Definition filters_pass (rule : Rule.t) (p : Packet.info) : Prop :=
  passes Py.truthy_str (Rule.src_ip rule) (Packet.src_ip p)
  /\ passes Py.truthy_str (Rule.dst_ip rule) (Packet.dst_ip p)
  /\ passes Py.truthy_int (Rule.protocol rule) (Packet.protocol p).

(** The packet has the address, and it is not the one the rule asks for. *)
Definition differs (wanted actual : option string) : Prop :=
  exists a b, wanted = Some a /\ actual = Some b /\ b <> "" /\ a <> b.

(** A rule whose pattern does not compile, and a rule that loads. *)
Definition malformed (rule : Rule.t) : Prop :=
  exists exn, compiled rule = Raised exn.

Definition loads_as (rule rule' : Rule.t) : Prop :=
  compiled rule = Returned rule'.

End RuleFilter.

Module Expiry.

Import FeatureExtractor FlowInv.

(** The flow is mature and has been idle for longer than the window. *)
Definition expired (now window : Z) (stats : Flow.stats) : bool :=
  match Flow.last_time stats with
  | None => false
  | Some last =>
    negb (Flow.packet_count stats <? min_packets)
    && Py.Qgtb (Py.total_seconds (now - last)) (inject_Z window)
  end.

(** The vectors a round of the expiry loop adds for an entry. *)
Definition vectors (now window : Z) (item : string * Flow.stats)
  : list Features.t :=
  if expired now window item.2 then
    match _extract_flow_features item.1 item.2 with
    | Returned (Some f) => [f]
    | _ => []
    end
  else [].

(** The table a round of the expiry loop leaves. *)
Definition dropped (now window : Z) (table : gmap string Flow.stats)
    (item : string * Flow.stats) : gmap string Flow.stats :=
  if expired now window item.2 then delete item.1 table else table.


(** What holds of the extractor between two packets: the table satisfies
    its invariant, and the feature queue holds no empty batch and no
    vector of a flow with fewer than 5 packets. *)
Definition settled (self : state) : Prop :=
  map_Forall (fun _ flow => tracked flow) (flow_stats self)
  /\ Forall (fun batch =>
               batch <> []
               /\ Forall (fun f => 5 <= Features.packet_count f) batch)
            (feature_queue self).

End Expiry.

(** ** Sample traffic

    Packets between 10.0.0.1 and 10.0.0.2 over protocol 6 (TCP), with the
    time in seconds and the size given. *)

Module Sample.

Definition seconds (n : Z) : Z := n * 1000000.

Definition packet (src dst : string) (time size : Z) : Packet.info :=
  {| Packet.timestamp := seconds time;
     Packet.src_ip := Some src;
     Packet.dst_ip := Some dst;
     Packet.protocol := Some 6;
     Packet.length := size;
     Packet.raw_packet := Some {| Packet.raw_load := None |} |}.

Definition forth (time size : Z) : Packet.info :=
  packet "10.0.0.1" "10.0.0.2" time size.

Definition back (time size : Z) : Packet.info :=
  packet "10.0.0.2" "10.0.0.1" time size.

Definition key : string := "10.0.0.1_10.0.0.2_6".

(** The extractor after three packets of one conversation, one second
    apart, of sizes 100, 150 and 120, each processed when it was captured. *)
Definition after_three_packets : FeatureExtractor.state :=
  FeatureExtractor._process_queue FeatureExtractor.init
    [(seconds 0, forth 0 100); (seconds 1, back 1 150);
     (seconds 2, forth 2 120)].

(** The state of that conversation in the flow table. *)
Definition three_packet_flow : Flow.stats :=
  {| Flow.packet_count := 3;
     Flow.byte_count := 370;
     Flow.start_time := Some (seconds 0);
     Flow.last_time := Some (seconds 2);
     Flow.intervals := [Py.total_seconds (seconds 1);
                        Py.total_seconds (seconds 1)];
     Flow.packet_sizes := [100; 150; 120] |}.

(** A filter-only rule on the source address 10.0.0.1. *)
Definition from_host : Rule.t :=
  {| Rule.id := Some "R1"; Rule.src_ip := Some "10.0.0.1";
     Rule.dst_ip := None; Rule.protocol := None; Rule.pattern := None;
     Rule.confidence := Some (9 # 10)%Q;
     Rule.description := Some "traffic from 10.0.0.1";
     Rule.compiled_pattern := None |}.

(** A rule whose pattern, an opening parenthesis alone, does not compile. *)
Definition broken : Rule.t :=
  {| Rule.id := Some "R2"; Rule.src_ip := None; Rule.dst_ip := None;
     Rule.protocol := None;
     Rule.pattern := Some {| Rule.text := "("; Rule.compile := None |};
     Rule.confidence := None; Rule.description := None;
     Rule.compiled_pattern := None |}.

(** A packet without an IP layer: no addresses and no protocol. *)
Definition no_ip_layer : Packet.info :=
  {| Packet.timestamp := seconds 3; Packet.src_ip := None;
     Packet.dst_ip := None; Packet.protocol := None; Packet.length := 42;
     Packet.raw_packet := Some {| Packet.raw_load := None |} |}.

(** A packet record from 10.0.0.1 whose [raw_packet] is missing. *)
Definition without_raw_packet : Packet.info :=
  {| Packet.timestamp := seconds 4; Packet.src_ip := Some "10.0.0.1";
     Packet.dst_ip := Some "10.0.0.2"; Packet.protocol := Some 6;
     Packet.length := 60; Packet.raw_packet := None |}.

(** A feature vector, and [n] batches that each hold it alone. *)
Definition vector : Features.t :=
  {| Features.flow_key := key;
     Features.timestamp := seconds 4;
     Features.packet_count := 5;
     Features.byte_count := 500;
     Features.duration := 4 # 1;
     Features.packets_per_second := 5 # 4;
     Features.bytes_per_second := 125 # 1;
     Features.mean_packet_size := 100 # 1;
     Features.var_packet_size := 0 # 1;
     Features.min_packet_size := 100;
     Features.max_packet_size := 100;
     Features.mean_interval := 1 # 1;
     Features.var_interval := 0 # 1 |}.

Definition singles (fv : Features.t) (n : Z) : list (list Features.t) :=
  repeat [fv] (Z.to_nat n).

(** Alerts for the examples of the query service, given by their type and
    the text of their timestamp, and a reader of timestamps that reads any
    text but the empty one, as its length. *)
Definition kind (a : string * string) : option string := Some a.1.

Definition time (a : string * string) : string := a.2.

Definition read (s : string) : option Z :=
  if String.eqb s "" then None else Some (Z.of_nat (String.length s)).

End Sample.

(** * Properties *)

(** ** Flow key and flow table *)

Module FlowProps.

Import FeatureExtractor FlowInv.

Lemma sorted_pair_comm (a b : string) : Py.sorted [a; b] = Py.sorted [b; a].
Proof.
  unfold Py.sorted; simpl. unfold String.ltb.
  rewrite (String.compare_antisym a b).
  destruct (String.compare b a) eqn:E; simpl; try reflexivity.
  apply String.compare_eq_iff in E. now subst.
Qed.

(** C1. The flow key does not depend on the direction of the packet: with
    source and destination exchanged (same protocol) the key is the same,
    and so is the whole effect of [_update_flow_stats] on the flow table. *)
Theorem flow_key_symmetric (A B : option string) (P : option Z) :
  flow_key A B P = flow_key B A P
  /\ forall (ts len : Z) (raw : option Packet.raw)
            (table : gmap string Flow.stats),
       _update_flow_stats
         {| Packet.timestamp := ts; Packet.src_ip := A; Packet.dst_ip := B;
            Packet.protocol := P; Packet.length := len;
            Packet.raw_packet := raw |} table
       = _update_flow_stats
         {| Packet.timestamp := ts; Packet.src_ip := B; Packet.dst_ip := A;
            Packet.protocol := P; Packet.length := len;
            Packet.raw_packet := raw |} table.
Proof.
  assert (K : flow_key A B P = flow_key B A P).
  { unfold flow_key. rewrite (andb_comm (Py.truthy_str A)).
    now rewrite sorted_pair_comm. }
  split; [exact K|].
  intros ts len raw table. unfold _update_flow_stats; simpl.
  now rewrite K.
Qed.

(** What [_update_flow_stats] does to a flow that has already been seen:
    one interval more, the difference of the times in seconds. *)
Lemma update_existing_flow (p : Packet.info)
    (table : gmap string Flow.stats) (key : string) (flow : Flow.stats)
    (start last : Z) :
  key_of p = Some key ->
  table !! key = Some flow ->
  Flow.start_time flow = Some start ->
  Flow.last_time flow = Some last ->
  _update_flow_stats p table =
    (<[key := {| Flow.packet_count := Flow.packet_count flow + 1;
                 Flow.byte_count := Flow.byte_count flow + Packet.length p;
                 Flow.start_time := Some start;
                 Flow.last_time := Some (Packet.timestamp p);
                 Flow.intervals :=
                   Flow.intervals flow
                   ++ [Py.total_seconds (Packet.timestamp p - last)];
                 Flow.packet_sizes :=
                   Flow.packet_sizes flow ++ [Packet.length p] |}]> table,
     Returned tt).
Proof.
  unfold key_of, _update_flow_stats. intros -> Hk Hs Hl.
  rewrite Hk; simpl. rewrite Hs, Hl.
  now rewrite insert_insert_eq.
Qed.

Lemma total_seconds_sign (d : Z) :
  (d < 0 -> (Py.total_seconds d < 0)%Q)
  /\ (d = 0 -> (Py.total_seconds d == 0)%Q)
  /\ (0 < d -> (0 < Py.total_seconds d)%Q).
Proof.
  unfold Py.total_seconds, Qlt, Qeq; simpl. lia.
Qed.

(** C2, as the code has it. For a flow that already has a state and a
    further packet of that flow, the interval appended is the time of the
    packet minus the last-seen time, in seconds, as it is: zero when the
    two times are equal and negative when the packet is the earlier one. *)
Theorem interval_is_time_difference (p : Packet.info)
    (table : gmap string Flow.stats) (key : string) (flow : Flow.stats)
    (start last : Z) :
  key_of p = Some key ->
  table !! key = Some flow ->
  Flow.start_time flow = Some start ->
  Flow.last_time flow = Some last ->
  exists flow',
    fst (_update_flow_stats p table) !! key = Some flow'
    /\ snd (_update_flow_stats p table) = Returned tt
    /\ Flow.intervals flow' =
         Flow.intervals flow ++ [Py.total_seconds (Packet.timestamp p - last)]
    /\ (Packet.timestamp p = last ->
        (Py.total_seconds (Packet.timestamp p - last) == 0)%Q)
    /\ (Packet.timestamp p < last ->
        (Py.total_seconds (Packet.timestamp p - last) < 0)%Q).
Proof.
  intros Hkey Hflow Hstart Hlast.
  rewrite (update_existing_flow p table key flow start last) by assumption.
  eexists; simpl. rewrite lookup_insert_eq.
  repeat split.
  - intros E. apply total_seconds_sign. lia.
  - intros E. apply total_seconds_sign. lia.
Qed.

(** A flow first seen at second 10, and a packet of it stamped second 5. *)
Lemma interval_is_time_difference_witness :
  let table := fst (_update_flow_stats (Sample.forth 10 100) ∅) in
  let flow :=
    {| Flow.packet_count := 1; Flow.byte_count := 100;
       Flow.start_time := Some 10000000; Flow.last_time := Some 10000000;
       Flow.intervals := []; Flow.packet_sizes := [100] |} in
  key_of (Sample.back 5 60) = Some Sample.key
  /\ table !! Sample.key = Some flow
  /\ exists flow',
       fst (_update_flow_stats (Sample.back 5 60) table) !! Sample.key
         = Some flow'
       /\ snd (_update_flow_stats (Sample.back 5 60) table) = Returned tt
       /\ Flow.intervals flow' = [Py.total_seconds (5000000 - 10000000)]
       /\ (5000000 = 10000000 ->
           (Py.total_seconds (5000000 - 10000000) == 0)%Q)
       /\ (5000000 < 10000000 ->
           (Py.total_seconds (5000000 - 10000000) < 0)%Q).
Proof.
  split; [reflexivity|]. split; [vm_compute; reflexivity|].
  apply (interval_is_time_difference (Sample.back 5 60)
           (fst (_update_flow_stats (Sample.forth 10 100) ∅)) Sample.key
           {| Flow.packet_count := 1; Flow.byte_count := 100;
              Flow.start_time := Some 10000000;
              Flow.last_time := Some 10000000;
              Flow.intervals := []; Flow.packet_sizes := [100] |}
           10000000 10000000);
    [reflexivity | vm_compute; reflexivity | reflexivity | reflexivity].
Defined.

(** C2, as stated, fails: a packet stamped 5 seconds before the last one
    seen appends the interval -5, not 0. *)
Lemma interval_not_clamped :
  let table := fst (_update_flow_stats (Sample.forth 10 100) ∅) in
  let table' := fst (_update_flow_stats (Sample.back 5 60) table) in
  Flow.intervals <$> (table' !! Sample.key) = Some [(-5000000 # 1000000)%Q]
  /\ ((-5000000 # 1000000) < 0)%Q
  /\ Qmax 0 (-5000000 # 1000000) = (0 # 1)%Q.
Proof.
  split; [vm_compute; reflexivity|]. split; reflexivity.
Qed.

(** The features extracted for a flow carry its key. *)
Lemma extract_flow_key (key : string) (stats : Flow.stats) (f : Features.t) :
  _extract_flow_features key stats = Returned (Some f) ->
  Features.flow_key f = key.
Proof.
  unfold _extract_flow_features.
  destruct (Flow.packet_count stats <? 2); [discriminate|].
  destruct (0 <? Py.len (Flow.intervals stats));
    destruct (Flow.last_time stats); try discriminate;
    destruct (Flow.start_time stats); try discriminate;
    destruct (Py.Qgtb _ _);
    destruct (Np.min _); try discriminate;
    destruct (Np.max _); try discriminate;
    intros [= <-]; reflexivity.
Qed.

Lemma expire_flow_untouched (now window : Z) (key : string)
    (flow : Flow.stats) acc (item : string * Flow.stats) :
  (item.1 = key -> Flow.packet_count item.2 < min_packets) ->
  untouched key flow acc ->
  untouched key flow (expire_flow now window acc item).
Proof.
  intros Hitem [Hkeep Hbatch].
  destruct acc as [table [batch|exn]], item as [k stats];
    simpl in *; [|split; [assumption|discriminate]].
  destruct (Flow.last_time stats) as [last|]; [|now split].
  destruct (Z.ltb_spec (Flow.packet_count stats) min_packets) as [Hlt|Hge];
    [now split|].
  destruct (Py.Qgtb _ _); [|now split].
  assert (Hne : k <> key) by (intros E; specialize (Hitem E); lia).
  destruct (_extract_flow_features k stats) as [features|exn] eqn:Hex.
  - split; simpl.
    + now rewrite lookup_delete_ne.
    + intros ? [= <-]. apply Forall_app; split; [now apply Hbatch|].
      destruct features as [f|]; simpl; [|constructor].
      constructor; [|constructor].
      now rewrite (extract_flow_key k stats f Hex).
  - split; [assumption|discriminate].
Qed.

Lemma expire_all_untouched (now window : Z) (key : string)
    (flow : Flow.stats) (items : list (string * Flow.stats)) acc :
  (forall stats, (key, stats) ∈ items ->
                 Flow.packet_count stats < min_packets) ->
  untouched key flow acc ->
  untouched key flow (foldl (expire_flow now window) acc items).
Proof.
  revert acc. induction items as [|item items IH]; intros acc Hitems Hacc;
    [exact Hacc|].
  simpl. apply IH.
  - intros stats Hin. apply Hitems. now right.
  - apply expire_flow_untouched; [|exact Hacc].
    destruct item as [k stats]; simpl. intros ->. apply Hitems. now left.
Qed.

(** C3. A flow with fewer than 5 packets is never emitted by
    [_generate_features], whatever the current time and the window: its
    entry stays in the flow table unchanged, and no feature vector of the
    batch carries its key. *)
Theorem immature_flow_retained (now window : Z)
    (table : gmap string Flow.stats) (key : string) (flow : Flow.stats) :
  table !! key = Some flow ->
  Flow.packet_count flow < 5 ->
  fst (_generate_features now window table) !! key = Some flow
  /\ forall batch,
       snd (_generate_features now window table) = Returned batch ->
       forall f, f ∈ batch -> Features.flow_key f <> key.
Proof.
  intros Hflow Hcount.
  destruct (expire_all_untouched now window key flow (map_to_list table)
              (table, Returned [])) as [Hkeep Hbatch].
  - intros stats Hin. apply elem_of_map_to_list in Hin.
    rewrite Hflow in Hin. injection Hin as <-. exact Hcount.
  - split; [exact Hflow|]. intros ? [= <-]. constructor.
  - split; [exact Hkeep|].
    intros batch Hr f Hf. specialize (Hbatch batch Hr).
    rewrite Forall_forall in Hbatch. now apply Hbatch.
Qed.

(** A flow seen three times, drained 65 seconds after its last packet. *)
Lemma immature_flow_retained_witness :
  let table := flow_stats Sample.after_three_packets in
  table !! Sample.key = Some Sample.three_packet_flow
  /\ Flow.packet_count Sample.three_packet_flow < 5
  /\ fst (_generate_features (Sample.seconds 67) 60 table) !! Sample.key
       = Some Sample.three_packet_flow
  /\ forall batch,
       snd (_generate_features (Sample.seconds 67) 60 table) = Returned batch ->
       forall f, f ∈ batch -> Features.flow_key f <> Sample.key.
Proof.
  split; [vm_compute; reflexivity|]. split; [reflexivity|].
  apply (immature_flow_retained (Sample.seconds 67) 60
           (flow_stats Sample.after_three_packets) Sample.key
           Sample.three_packet_flow);
    [vm_compute; reflexivity | reflexivity].
Defined.

Lemma after_three_packets_table :
  flow_stats Sample.after_three_packets
  = {[ Sample.key := Sample.three_packet_flow ]}.
Proof. vm_compute. reflexivity. Qed.

(** C4, as stated, fails: after the three packets and the idle gap of 65
    seconds no batch has been put on the feature queue, and the drain at
    second 67 returns no feature vector. *)
Lemma three_packets_emit_nothing :
  feature_queue Sample.after_three_packets = []
  /\ snd (_generate_features (Sample.seconds 67) 60
            (flow_stats Sample.after_three_packets)) = Returned [].
Proof.
  split; [vm_compute; reflexivity|].
  rewrite after_three_packets_table.
  unfold _generate_features. rewrite map_to_list_singleton. reflexivity.
Qed.

(** C4, as the code has it. Three packets between 10.0.0.1 and 10.0.0.2
    over protocol 6, one second apart, of sizes 100, 150 and 120, leave one
    flow of 3 packets in the table and nothing on the feature queue; a
    drain at any later time returns no feature vector and keeps the flow,
    which is below the 5 packets of the maturity gate.  The feature
    function applied to that flow gives [packet_count = 3],
    [mean_packet_size = 370/3] (123.33 to two decimals) and
    [duration = 2]. *)
Theorem three_packet_scenario :
  feature_queue Sample.after_three_packets = []
  /\ flow_stats Sample.after_three_packets
       = {[ Sample.key := Sample.three_packet_flow ]}
  /\ (forall now : Z,
        _generate_features now 60 (flow_stats Sample.after_three_packets)
        = (flow_stats Sample.after_three_packets, Returned []))
  /\ exists f,
       _extract_flow_features Sample.key Sample.three_packet_flow
         = Returned (Some f)
       /\ Features.packet_count f = 3
       /\ (Features.mean_packet_size f == 370 # 3)%Q
       /\ (12333 # 100 <= Features.mean_packet_size f < 12334 # 100)%Q
       /\ (Features.duration f == 2 # 1)%Q.
Proof.
  split; [vm_compute; reflexivity|].
  split; [exact after_three_packets_table|].
  split.
  - intros now. rewrite after_three_packets_table.
    unfold _generate_features. rewrite map_to_list_singleton. reflexivity.
  - eexists. split; [reflexivity|]. simpl.
    repeat split; vm_compute; congruence.
Qed.

Lemma len_snoc {A} (l : list A) (x : A) : Py.len (l ++ [x]) = Py.len l + 1.
Proof. unfold Py.len. rewrite length_app. simpl. lia. Qed.

Lemma sumZ_snoc (l : list Z) (x : Z) : Py.sumZ (l ++ [x]) = Py.sumZ l + x.
Proof. induction l as [|y l IH]; simpl; [lia|]. rewrite IH. lia. Qed.

Lemma update_tracked (p : Packet.info) (table : gmap string Flow.stats) :
  map_Forall (fun _ flow => tracked flow) table ->
  map_Forall (fun _ flow => tracked flow) (fst (_update_flow_stats p table)).
Proof.
  intros Htable. unfold _update_flow_stats.
  destruct (flow_key _ _ _) as [key|]; [|exact Htable].
  destruct (table !! key) as [flow|] eqn:Hflow; simpl.
  - destruct (Htable key flow Hflow) as ([start Hs] & [last Hl] & Hc & Hb & Hi).
    rewrite Hs, Hl; simpl. rewrite insert_insert_eq.
    apply map_Forall_insert_2; [|exact Htable].
    repeat split; simpl; eauto;
      rewrite ?len_snoc, ?sumZ_snoc; lia.
  - rewrite insert_insert_eq.
    apply map_Forall_insert_2; [|exact Htable].
    repeat split; simpl; eauto; lia.
Qed.

Lemma expire_flow_submap (now window : Z) (table : gmap string Flow.stats)
    acc (item : string * Flow.stats) :
  fst acc ⊆ table -> fst (expire_flow now window acc item) ⊆ table.
Proof.
  intros Hsub. destruct acc as [t [batch|exn]], item as [k stats];
    simpl in *; [|exact Hsub].
  destruct (Flow.last_time stats); [|exact Hsub].
  destruct (_ <? _); [exact Hsub|].
  destruct (Py.Qgtb _ _); [|exact Hsub].
  destruct (_extract_flow_features k stats); simpl; [|exact Hsub].
  transitivity t; [apply delete_subseteq|exact Hsub].
Qed.

(** A drain only removes entries. *)
Lemma generate_features_submap (now window : Z)
    (table : gmap string Flow.stats) :
  fst (_generate_features now window table) ⊆ table.
Proof.
  unfold _generate_features.
  assert (H : forall items acc, fst acc ⊆ table ->
                fst (foldl (expire_flow now window) acc items) ⊆ table).
  { induction items as [|item items IH]; intros acc Hacc; [exact Hacc|].
    simpl. apply IH. now apply expire_flow_submap. }
  now apply H.
Qed.

Lemma step_tracked (window : Z) (table : gmap string Flow.stats) (e : event) :
  map_Forall (fun _ flow => tracked flow) table ->
  map_Forall (fun _ flow => tracked flow) (step window table e).
Proof.
  intros Htable. destruct e as [p|now]; simpl.
  - now apply update_tracked.
  - intros key flow Hflow. apply (Htable key).
    eapply lookup_weaken; [exact Hflow|].
    apply generate_features_submap.
Qed.

Lemma run_tracked (window : Z) (events : list event) :
  map_Forall (fun _ flow => tracked flow) (run window events).
Proof.
  unfold run.
  assert (H : forall table, map_Forall (fun _ flow => tracked flow) table ->
                map_Forall (fun _ flow => tracked flow)
                           (foldl (step window) table events)).
  { induction events as [|e events IH]; intros table Ht; [exact Ht|].
    simpl. apply IH. now apply step_tracked. }
  apply H. apply map_Forall_empty.
Qed.

(** C10. In every entry of the flow table after any sequence of packet
    ingestions and drains from the empty table, [packet_count] is the
    length of [packet_sizes], [byte_count] is their sum, and [intervals]
    has [packet_count - 1] entries; a further ingestion or drain leaves
    every entry of the table so. *)
Theorem flow_state_consistent (window : Z) (events : list event)
    (key : string) (flow : Flow.stats) :
  run window events !! key = Some flow ->
  consistent flow
  /\ forall (e : event) (key' : string) (flow' : Flow.stats),
       step window (run window events) e !! key' = Some flow' ->
       consistent flow'.
Proof.
  intros Hflow. split.
  - now destruct (run_tracked window events key flow Hflow) as (_ & _ & Hc).
  - intros e key' flow' Hflow'.
    pose proof (step_tracked window _ e (run_tracked window events)) as H.
    now destruct (H key' flow' Hflow') as (_ & _ & Hc).
Qed.

(** Two packets, a drain, and a third packet of the same conversation. *)
Lemma flow_state_consistent_witness :
  let events := [Ingest (Sample.forth 0 100); Ingest (Sample.back 1 150);
                 Drain (Sample.seconds 67); Ingest (Sample.forth 2 120)] in
  run 60 events !! Sample.key = Some Sample.three_packet_flow
  /\ consistent Sample.three_packet_flow
  /\ forall (e : event) (key' : string) (flow' : Flow.stats),
       step 60 (run 60 events) e !! key' = Some flow' -> consistent flow'.
Proof.
  split; [vm_compute; reflexivity|].
  apply (flow_state_consistent 60
           [Ingest (Sample.forth 0 100); Ingest (Sample.back 1 150);
            Drain (Sample.seconds 67); Ingest (Sample.forth 2 120)]
           Sample.key Sample.three_packet_flow).
  vm_compute; reflexivity.
Defined.

End FlowProps.

(** ** Signature rules *)

Module RuleProps.

Import RulesEngine RuleFilter.

(** The three tests of [check_rule] are the negation of [passes]. *)
Lemma filter_test {A : Type} `{EqDecision A} (truthy : option A -> bool)
    (wanted actual : option A) :
  passes truthy wanted actual <->
  bool_decide (is_Some wanted) && truthy actual
  && negb (bool_decide (wanted = actual)) = false.
Proof.
  unfold passes. split.
  - intros [-> | [-> | ->]].
    + reflexivity.
    + now rewrite Bool.andb_false_r.
    + rewrite (bool_decide_eq_true_2 (actual = actual)) by reflexivity.
      now rewrite Bool.andb_false_r.
  - destruct wanted as [w|]; [|now left]. simpl.
    destruct (truthy actual); [|now (right; left)]. simpl.
    intros H. right; right.
    apply negb_false_iff, bool_decide_eq_true in H. exact H.
Qed.

(** A concrete rule and packet: each filter passes by one of the three
    alternatives, found by evaluation. *)
Ltac pass_filters :=
  repeat split;
  first [ left; reflexivity
        | right; left; reflexivity
        | right; right; reflexivity ].

(** A rule without a compiled pattern fires as soon as its filters pass. *)
Lemma filter_only_fires (rule : Rule.t) (p : Packet.info) (raw : Packet.raw) :
  Rule.compiled_pattern rule = None ->
  filters_pass rule p ->
  check_rule p raw rule = Some (alert p rule).
Proof.
  intros Hpat (Hs & Hd & Hp). unfold check_rule.
  apply filter_test in Hs, Hd, Hp.
  rewrite Hs, Hd, Hp, Hpat. reflexivity.
Qed.

(** A filter that does not pass leaves the rule. *)
Lemma failed_filter_skips (rule : Rule.t) (p : Packet.info) (raw : Packet.raw) :
  ~ filters_pass rule p -> check_rule p raw rule = None.
Proof.
  intros Hno. unfold check_rule.
  destruct (_ && _ && _) eqn:Hs; [reflexivity|].
  destruct (_ && _ && _) eqn:Hd in |- *; [reflexivity|].
  destruct (_ && _ && _) eqn:Hp in |- *; [reflexivity|].
  exfalso. apply Hno. repeat split; now apply filter_test.
Qed.

Lemma check_rules_app (before after : list Rule.t) (p : Packet.info) :
  _check_rules (before ++ after) p
  = _check_rules before p ++ _check_rules after p.
Proof.
  unfold _check_rules. destruct (Packet.raw_packet p); [|reflexivity].
  apply omap_app.
Qed.

Lemma check_rules_one (rule : Rule.t) (p : Packet.info) (raw : Packet.raw) :
  Packet.raw_packet p = Some raw ->
  _check_rules [rule] p = option_list (check_rule p raw rule).
Proof.
  unfold _check_rules. intros ->. simpl.
  now destruct (check_rule p raw rule).
Qed.

(** The alerts of a rule set around one of its rules. *)
Lemma check_rules_split (before after : list Rule.t) (rule : Rule.t)
    (p : Packet.info) (raw : Packet.raw) :
  Packet.raw_packet p = Some raw ->
  _check_rules (before ++ rule :: after) p
  = _check_rules before p ++ option_list (check_rule p raw rule)
    ++ _check_rules after p.
Proof.
  intros Hraw.
  change (rule :: after) with ([rule] ++ after).
  now rewrite !check_rules_app, (check_rules_one rule p raw Hraw).
Qed.

Lemma check_rules_without_raw_packet (rules : list Rule.t) (p : Packet.info) :
  Packet.raw_packet p = None -> _check_rules rules p = [].
Proof. unfold _check_rules. now intros ->. Qed.

Lemma differs_not_passes (wanted actual : option string) :
  differs wanted actual -> ~ passes Py.truthy_str wanted actual.
Proof.
  intros (a & b & -> & -> & Hb & Hab) [H | [H | H]].
  - discriminate.
  - simpl in H. apply negb_false_iff, String.eqb_eq in H. contradiction.
  - injection H as ->. contradiction.
Qed.

(** C7, as the code has it. A rule that names a source (or destination)
    address is skipped, and emits no alert, for every packet whose source
    (or destination) address is present and is another one.  A packet
    that lacks the address is not skipped on that filter.  A rule without
    a pattern whose filters pass (each value the rule names is equal to the
    packet's, or the packet lacks it) fires for every packet that carries a
    raw packet, whatever its payload. *)
Theorem address_filter_precedence (rule : Rule.t) (p : Packet.info)
    (before after : list Rule.t) :
  (differs (Rule.src_ip rule) (Packet.src_ip p)
   \/ differs (Rule.dst_ip rule) (Packet.dst_ip p) ->
   (forall raw, check_rule p raw rule = None)
   /\ _check_rules (before ++ rule :: after) p
      = _check_rules before p ++ _check_rules after p)
  /\ (Rule.compiled_pattern rule = None ->
      filters_pass rule p ->
      forall raw, Packet.raw_packet p = Some raw ->
        check_rule p raw rule = Some (alert p rule)
        /\ _check_rules (before ++ rule :: after) p
           = _check_rules before p ++ alert p rule :: _check_rules after p).
Proof.
  split.
  - intros Hdiff.
    assert (Hskip : forall raw, check_rule p raw rule = None).
    { intros raw. apply failed_filter_skips. intros (Hs & Hd & _).
      destruct Hdiff as [H | H]; now apply differs_not_passes in H. }
    split; [exact Hskip|].
    destruct (Packet.raw_packet p) as [raw|] eqn:Hraw.
    + now rewrite (check_rules_split before after rule p raw Hraw), Hskip.
    + now rewrite !check_rules_without_raw_packet.
  - intros Hpat Hpass raw Hraw.
    pose proof (filter_only_fires rule p raw Hpat Hpass) as Hfire.
    split; [exact Hfire|].
    now rewrite (check_rules_split before after rule p raw Hraw), Hfire.
Qed.

(** The rule on source 10.0.0.1: skipped for a packet from 10.0.0.2, fired
    for a packet from 10.0.0.1 with a payload it never looks at. *)
Lemma address_filter_precedence_witness :
  ((forall raw, check_rule (Sample.back 1 150) raw Sample.from_host = None)
   /\ _check_rules ([] ++ Sample.from_host :: []) (Sample.back 1 150)
      = _check_rules [] (Sample.back 1 150)
        ++ _check_rules [] (Sample.back 1 150))
  /\ (check_rule (Sample.forth 0 100) {| Packet.raw_load := Some "GET /" |}
        Sample.from_host
      = Some (alert (Sample.forth 0 100) Sample.from_host)
      /\ _check_rules ([] ++ Sample.from_host :: []) (Sample.forth 0 100)
         = _check_rules [] (Sample.forth 0 100)
           ++ alert (Sample.forth 0 100) Sample.from_host
              :: _check_rules [] (Sample.forth 0 100)).
Proof.
  split.
  - apply (address_filter_precedence Sample.from_host (Sample.back 1 150)
             [] []).
    left. exists "10.0.0.1", "10.0.0.2". repeat split; discriminate.
  - split.
    + apply filter_only_fires; [reflexivity|].
      pass_filters.
    + apply (address_filter_precedence Sample.from_host (Sample.forth 0 100)
               [] []) with (raw := {| Packet.raw_load := None |});
        [reflexivity | | reflexivity].
      pass_filters.
Defined.

(** C7, as stated, fails where the address is absent: the rule on source
    10.0.0.1 fires for a packet that has no source address. *)
Lemma absent_address_not_filtered :
  Rule.src_ip Sample.from_host = Some "10.0.0.1"
  /\ Packet.src_ip Sample.no_ip_layer = None
  /\ _check_rules [Sample.from_host] Sample.no_ip_layer
     = [alert Sample.no_ip_layer Sample.from_host].
Proof. repeat split. Qed.

(** C8, as the code has it. For a rule without a pattern and a packet that
    carries a raw packet and passes the address and protocol filters of the
    rule, [_check_rules] emits exactly one alert for the rule, of kind
    [SIGNATURE] and with the rule's id, whether or not the raw packet has a
    payload; a packet record without a raw packet yields no alert. *)
Theorem filter_only_rule_alert (rule : Rule.t) (p : Packet.info)
    (raw : Packet.raw) (before after : list Rule.t) :
  Rule.compiled_pattern rule = None ->
  filters_pass rule p ->
  Packet.raw_packet p = Some raw ->
  _check_rules [rule] p = [alert p rule]
  /\ _check_rules (before ++ rule :: after) p
     = _check_rules before p ++ alert p rule :: _check_rules after p
  /\ SignatureAlert.kind (alert p rule) = SIGNATURE
  /\ SignatureAlert.rule_id (alert p rule) = default "unknown" (Rule.id rule)
  /\ forall (rules : list Rule.t) (p' : Packet.info),
       Packet.raw_packet p' = None -> _check_rules rules p' = [].
Proof.
  intros Hpat Hpass Hraw.
  pose proof (filter_only_fires rule p raw Hpat Hpass) as Hfire.
  repeat split.
  - now rewrite (check_rules_one rule p raw Hraw), Hfire.
  - now rewrite (check_rules_split before after rule p raw Hraw), Hfire.
  - apply check_rules_without_raw_packet.
Qed.

(** The rule on source 10.0.0.1 and a packet from there without payload. *)
Lemma filter_only_rule_alert_witness :
  Rule.compiled_pattern Sample.from_host = None
  /\ filters_pass Sample.from_host (Sample.forth 0 100)
  /\ Packet.raw_packet (Sample.forth 0 100)
     = Some {| Packet.raw_load := None |}
  /\ _check_rules [Sample.from_host] (Sample.forth 0 100)
     = [alert (Sample.forth 0 100) Sample.from_host].
Proof.
  assert (Hpass : filters_pass Sample.from_host (Sample.forth 0 100)).
  { pass_filters. }
  split; [reflexivity|]. split; [exact Hpass|]. split; [reflexivity|].
  apply (filter_only_rule_alert Sample.from_host (Sample.forth 0 100)
           {| Packet.raw_load := None |} [] [] eq_refl Hpass eq_refl).
Defined.

(** C8, as stated, fails for a packet record without a raw packet: its
    addresses pass the filters of the rule, and no alert is emitted. *)
Lemma no_raw_packet_no_alert :
  Rule.compiled_pattern Sample.from_host = None
  /\ filters_pass Sample.from_host Sample.without_raw_packet
  /\ Packet.raw_packet Sample.without_raw_packet = None
  /\ _check_rules [Sample.from_host] Sample.without_raw_packet = [].
Proof.
  split; [reflexivity|]. split; [pass_filters|]. split; reflexivity.
Qed.

(** A rule read from the file (no [compiled_pattern] key yet) is loaded
    without a compiled pattern exactly when it has no [pattern] key. *)
Lemma loaded_without_pattern (rule rule' : Rule.t) :
  loads_as rule rule' ->
  Rule.compiled_pattern rule = None ->
  (Rule.pattern rule = None <-> Rule.compiled_pattern rule' = None).
Proof.
  unfold loads_as, compiled. intros Hload Hraw.
  destruct (Rule.pattern rule) as [p|].
  - destruct (Rule.compile p) as [c|]; [|discriminate].
    injection Hload as <-. simpl. split; discriminate.
  - injection Hload as <-. now split.
Qed.

Lemma malformed_pattern (rule : Rule.t) :
  malformed rule <->
  exists p, Rule.pattern rule = Some p /\ Rule.compile p = None.
Proof.
  unfold malformed, compiled. split.
  - intros [exn H]. destruct (Rule.pattern rule) as [p|]; [|discriminate].
    exists p. split; [reflexivity|].
    now destruct (Rule.compile p).
  - intros (p & -> & ->). now eexists.
Qed.

Lemma load_loop_well_formed (rule_defs loaded rules : list Rule.t) :
  Forall2 loads_as rule_defs loaded ->
  load_loop rule_defs rules = (rules ++ loaded, Returned tt).
Proof.
  intros H. revert rules.
  induction H as [|rule rule' rule_defs loaded Hrule _ IH]; intros rules; simpl.
  - now rewrite app_nil_r.
  - unfold loads_as in Hrule. rewrite Hrule, IH.
    now rewrite <- app_assoc.
Qed.

Lemma load_loop_stops (good loaded rest rules : list Rule.t) (bad : Rule.t)
    (exn : string) :
  Forall2 loads_as good loaded ->
  compiled bad = Raised exn ->
  load_loop (good ++ bad :: rest) rules = (rules ++ loaded, Raised exn).
Proof.
  intros H Hbad. revert rules.
  induction H as [|rule rule' good loaded Hrule _ IH]; intros rules; simpl.
  - now rewrite Hbad, app_nil_r.
  - unfold loads_as in Hrule. rewrite Hrule, IH.
    now rewrite <- app_assoc.
Qed.

(** C9, as the code has it. [load_rules] never raises.  The first rule of
    the file whose pattern does not compile ends the load: the rules before
    it are the rule set, and it and the rules after it are not loaded.  A
    file without such a rule is loaded whole.  A file that cannot be read
    leaves the rule set as it was, which is the empty one for an engine
    being constructed. *)
Theorem load_stops_at_malformed_rule (good loaded rest rules : list Rule.t) :
  Forall2 loads_as good loaded ->
  load_rules (Sequence good) rules = (loaded, Returned tt)
  /\ (forall bad, malformed bad ->
        fst (load_rules (Sequence (good ++ bad :: rest)) rules) = loaded
        /\ new (Some (Sequence (good ++ bad :: rest))) = loaded)
  /\ fst (load_rules Unreadable rules) = rules
  /\ new (Some Unreadable) = [].
Proof.
  intros Hgood. split; [|split].
  - simpl. now rewrite (load_loop_well_formed good loaded []).
  - intros bad [exn Hbad]. unfold new; simpl.
    now rewrite (load_loop_stops good loaded rest [] bad exn Hgood Hbad).
  - split; reflexivity.
Qed.

(** A file of three rules, the second one malformed. *)
Lemma load_stops_at_malformed_rule_witness :
  Forall2 loads_as [Sample.from_host] [Sample.from_host]
  /\ malformed Sample.broken
  /\ fst (load_rules
            (Sequence
               ([Sample.from_host] ++ Sample.broken :: [Sample.from_host]))
            []) = [Sample.from_host].
Proof.
  assert (Hgood : Forall2 loads_as [Sample.from_host] [Sample.from_host])
    by (repeat constructor).
  assert (Hbad : malformed Sample.broken) by (now exists "re.error").
  split; [exact Hgood|]. split; [exact Hbad|].
  destruct (load_stops_at_malformed_rule [Sample.from_host]
              [Sample.from_host] [Sample.from_host] [] Hgood)
    as (_ & Hstop & _).
  exact (proj1 (Hstop Sample.broken Hbad)).
Defined.

(** C9, as stated, fails: the well-formed rule that follows a malformed one
    in the file is not loaded. *)
Lemma rule_after_malformed_not_loaded :
  malformed Sample.broken
  /\ loads_as Sample.from_host Sample.from_host
  /\ load_rules (Sequence [Sample.broken; Sample.from_host]) []
     = ([], Raised "re.error").
Proof.
  split; [now exists "re.error"|]. split; reflexivity.
Qed.

End RuleProps.

(** ** The training corpus and the first model *)

Module AnomalyProps.

Import MLDetectionEngine.

Lemma len_app {A} (l k : list A) : Py.len (l ++ k) = Py.len l + Py.len k.
Proof. unfold Py.len. rewrite length_app. lia. Qed.

Lemma len_nonneg {A} (l : list A) : 0 <= Py.len l.
Proof. unfold Py.len. lia. Qed.

Lemma len_cons_pos {A} (x : A) (l : list A) : 0 < Py.len (x :: l).
Proof. unfold Py.len. simpl. lia. Qed.

(** [store] never changes the mode or the capacity. *)
Lemma store_settings (self : engine) (batch : list Features.t) :
  learning_mode (store self batch) = learning_mode self
  /\ max_training_samples (store self batch) = max_training_samples self.
Proof.
  unfold store. destruct (_ <? _); [|now split].
  destruct (_ && _); now split.
Qed.

(** Below the capacity the whole batch joins the training data. *)
Lemma store_below_capacity (self : engine) (batch : list Features.t) :
  Py.len (training_data self) < max_training_samples self ->
  training_data (store self batch) = training_data self ++ batch.
Proof.
  intros H. unfold store. apply Z.ltb_lt in H. rewrite H.
  now destruct (_ && _).
Qed.

(** At the capacity or above it nothing is stored and nothing is fitted. *)
Lemma store_at_capacity (self : engine) (batch : list Features.t) :
  max_training_samples self <= Py.len (training_data self) ->
  store self batch = self.
Proof.
  intros H. unfold store. apply Z.ltb_ge in H. now rewrite H.
Qed.

(** No model is fitted while the training data stay below 1,000. *)
Lemma store_untrained (self : engine) (batch : list Features.t) :
  model self = None ->
  Py.len (training_data self) + Py.len batch < min_training_samples ->
  model (store self batch) = None.
Proof.
  intros Hnone Hsmall. unfold store.
  destruct (_ <? _); [|exact Hnone]. cbn [training_data].
  rewrite len_app.
  destruct (Z.leb_spec min_training_samples
              (Py.len (training_data self) + Py.len batch)); [lia|].
  exact Hnone.
Qed.

(** The batch that takes the training data of an engine without a model to
    1,000 or more has the model fitted, on all of them. *)
Lemma store_trains (self : engine) (batch : list Features.t) :
  model self = None ->
  Py.len (training_data self) < max_training_samples self ->
  min_training_samples <= Py.len (training_data self) + Py.len batch ->
  model (store self batch) = Some (Fitted (training_data self ++ batch)).
Proof.
  intros Hnone Hroom Hfull. unfold store.
  apply Z.ltb_lt in Hroom. rewrite Hroom. cbn [training_data model].
  rewrite len_app. apply Z.leb_le in Hfull. rewrite Hfull, Hnone.
  reflexivity.
Qed.

Section Scoring.

Variable predict : isolation_forest -> standard_scaler -> Features.t -> Z.
Variable decision_function :
  isolation_forest -> standard_scaler -> Features.t -> Q.

Abbreviation step := (detection_step predict decision_function).
Abbreviation loop := (_detection_loop predict decision_function).

Lemma step_engine (self : engine) (batch : list Features.t) :
  fst (step self batch)
  = match batch with [] => self | _ => store self batch end.
Proof. now destruct batch. Qed.

Lemma loop_snoc (self : engine) (batches : list (list Features.t))
    (batch : list Features.t) :
  loop self (batches ++ [batch]) = fst (step (loop self batches) batch).
Proof. unfold _detection_loop. now rewrite foldl_app. Qed.

(** While the batches fit below 1,000 vectors, an engine without a model
    keeps all of them and stays without a model. *)
Lemma loop_untrained (batches : list (list Features.t)) (self : engine) :
  model self = None ->
  min_training_samples <= max_training_samples self ->
  Py.len (training_data self) + Py.len (concat batches)
    < min_training_samples ->
  model (loop self batches) = None
  /\ training_data (loop self batches) = training_data self ++ concat batches
  /\ max_training_samples (loop self batches) = max_training_samples self
  /\ learning_mode (loop self batches) = learning_mode self.
Proof.
  revert self. induction batches as [|batch batches IH];
    intros self Hnone Hcap Hsmall.
  - simpl. now rewrite app_nil_r.
  - simpl in Hsmall. rewrite len_app in Hsmall.
    pose proof (len_nonneg batch). pose proof (len_nonneg (concat batches)).
    change (loop self (batch :: batches))
      with (loop (fst (step self batch)) batches).
    rewrite step_engine. destruct batch as [|f batch].
    + simpl. apply IH; assumption.
    + set (b := f :: batch) in *.
      destruct (store_settings self b) as [Hmode Hmax].
      destruct (IH (store self b)) as (H1 & H2 & H3 & H4).
      * apply store_untrained; [assumption|lia].
      * now rewrite Hmax.
      * rewrite store_below_capacity, len_app by lia. lia.
      * rewrite H1, H2, H3, H4, Hmode, Hmax.
        rewrite store_below_capacity by lia.
        simpl. now rewrite <- app_assoc.
Qed.

(** C6. An engine that starts without a model keeps every vector of the
    batches it processes and has no model as long as these are at most 999
    vectors; the batch that brings the training data to 1,000 vectors or
    more has a model fitted on all of them. *)
Theorem anomaly_bootstrap (learning : bool)
    (batches : list (list Features.t)) (batch : list Features.t) :
  Py.len (concat batches) <= 999 ->
  1000 <= Py.len (concat batches) + Py.len batch ->
  model (loop (init learning) batches) = None
  /\ training_data (loop (init learning) batches) = concat batches
  /\ model (fst (step (loop (init learning) batches) batch))
     = Some (Fitted (concat batches ++ batch))
  /\ model (loop (init learning) (batches ++ [batch]))
     = Some (Fitted (concat batches ++ batch)).
Proof.
  intros Hsmall Hfull.
  destruct (loop_untrained batches (init learning))
    as (Hnone & Hdata & Hmax & _);
    [reflexivity | unfold min_training_samples; simpl; lia
     | unfold min_training_samples; simpl; unfold Py.len in *; simpl; lia |].
  simpl in Hdata, Hmax.
  assert (Hstep : model (fst (step (loop (init learning) batches) batch))
                  = Some (Fitted (concat batches ++ batch))).
  { rewrite step_engine. destruct batch as [|f batch].
    - unfold Py.len in *; simpl in Hfull. lia.
    - rewrite <- Hdata. apply store_trains.
      + exact Hnone.
      + rewrite Hmax, Hdata. lia.
      + rewrite Hdata. exact Hfull. }
  repeat split; try assumption.
  now rewrite loop_snoc.
Qed.

(** C5, where the code leaves the claim: after 9,999 batches of one vector
    the training data hold 9,999 vectors, one below the capacity of 10,000,
    and a batch of two vectors is stored whole, which makes 10,001. *)
Theorem corpus_exceeds_capacity (fv : Features.t) :
  let self := loop (init false) (Sample.singles fv 9999) in
  max_training_samples self = 10000
  /\ Py.len (training_data self) = 9999
  /\ Py.len (training_data (fst (step self [fv; fv]))) = 10001.
Proof.
  unfold Sample.singles. cbv zeta.
  assert (Hloop : forall (batches : list (list Features.t)) (self : engine),
            Py.len (training_data self) + Py.len (concat batches)
              <= max_training_samples self ->
            Forall (fun b => b <> []) batches ->
            training_data (loop self batches)
              = training_data self ++ concat batches
            /\ max_training_samples (loop self batches)
               = max_training_samples self).
  { induction batches as [|b batches IH]; intros self Hroom Hne.
    - simpl. now rewrite app_nil_r.
    - simpl in Hroom. rewrite len_app in Hroom.
      pose proof (len_nonneg (concat batches)).
      apply Forall_cons in Hne as [Hb Hne].
      change (loop self (b :: batches))
        with (loop (fst (step self b)) batches).
      rewrite step_engine. destruct b as [|f b]; [contradiction|].
      pose proof (len_cons_pos f b).
      destruct (store_settings self (f :: b)) as [_ Hmax].
      destruct (IH (store self (f :: b))) as [H1 H2].
      + rewrite Hmax, store_below_capacity, len_app by lia. lia.
      + exact Hne.
      + rewrite H1, H2, Hmax, store_below_capacity by lia.
        simpl. now rewrite <- app_assoc. }
  assert (Hlen : forall n : nat,
            Py.len (concat (repeat [fv] n)) = Z.of_nat n).
  { induction n as [|n IH]; [reflexivity|].
    change (concat (repeat [fv] (S n)))
      with ([fv] ++ concat (repeat [fv] n)).
    rewrite len_app, IH. unfold Py.len; simpl. lia. }
  remember (Z.to_nat 9999) as n eqn:Hn.
  assert (Hn' : Z.of_nat n = 9999) by lia. clear Hn.
  destruct (Hloop (repeat [fv] n) (init false)) as [Hdata Hmax].
  { rewrite Hlen. cbn [training_data max_training_samples init].
    unfold Py.len; cbn [List.length]. lia. }
  { apply Forall_forall. intros b Hb. apply list_elem_of_In in Hb.
    apply repeat_spec in Hb. now subst. }
  cbn [training_data max_training_samples init app] in Hdata, Hmax.
  split; [exact Hmax|]. split.
  - rewrite Hdata, Hlen. lia.
  - rewrite step_engine, store_below_capacity.
    + rewrite len_app, Hdata, Hlen. unfold Py.len; cbn [List.length]. lia.
    + rewrite Hmax, Hdata, Hlen. lia.
Qed.

End Scoring.

(** 999 batches of one vector, then the batch with the 1,000th. *)
Lemma anomaly_bootstrap_witness :
  let score :=
    fun (_ : isolation_forest) (_ : standard_scaler) (_ : Features.t) => 1 in
  let margin :=
    fun (_ : isolation_forest) (_ : standard_scaler) (_ : Features.t) =>
      (1 # 10)%Q in
  let batches := Sample.singles Sample.vector 999 in
  Py.len (concat batches) <= 999
  /\ 1000 <= Py.len (concat batches) + Py.len [Sample.vector]
  /\ model (_detection_loop score margin (init false) batches) = None
  /\ model (_detection_loop score margin (init false)
              (batches ++ [[Sample.vector]]))
     = Some (Fitted (concat batches ++ [Sample.vector])).
Proof.
  intros score margin batches.
  assert (H1 : Py.len (concat batches) <= 999)
    by (vm_compute; discriminate).
  assert (H2 : 1000 <= Py.len (concat batches) + Py.len [Sample.vector])
    by (vm_compute; discriminate).
  split; [exact H1|]. split; [exact H2|].
  destruct (anomaly_bootstrap score margin false batches [Sample.vector]
              H1 H2) as (Hnone & _ & _ & Htrained).
  split; [exact Hnone | exact Htrained].
Defined.

End AnomalyProps.

(** * Further properties of the code *)

(** ** Draining the flow table *)

Module ExtractorFacts.

Import FeatureExtractor FlowInv Expiry.

(** A flow that satisfies the invariant of the table has its features
    extracted without an exception. *)
Lemma extract_tracked (key : string) (stats : Flow.stats) :
  tracked stats ->
  exists features, _extract_flow_features key stats = Returned features.
Proof.
  intros ([start Hs] & [last Hl] & Hc & _ & _).
  unfold _extract_flow_features.
  destruct (Flow.packet_count stats <? 2) eqn:Hsmall; [now eexists|].
  apply Z.ltb_ge in Hsmall.
  destruct (0 <? Py.len (Flow.intervals stats)); rewrite Hs, Hl;
    destruct (Py.Qgtb _ _);
    (destruct (Flow.packet_sizes stats) as [|x sizes];
     [unfold Py.len in Hc; simpl in Hc; lia | now eexists]).
Qed.

(** The features extracted carry the counts of the flow. *)
Lemma extract_counts (key : string) (stats : Flow.stats) (f : Features.t) :
  _extract_flow_features key stats = Returned (Some f) ->
  Features.flow_key f = key
  /\ Features.packet_count f = Flow.packet_count stats
  /\ Features.byte_count f = Flow.byte_count stats.
Proof.
  unfold _extract_flow_features.
  destruct (Flow.packet_count stats <? 2); [discriminate|].
  destruct (0 <? Py.len (Flow.intervals stats));
    destruct (Flow.last_time stats); try discriminate;
    destruct (Flow.start_time stats); try discriminate;
    destruct (Py.Qgtb _ _);
    destruct (Np.min _); try discriminate;
    destruct (Np.max _); try discriminate;
    intros [= <-]; repeat split.
Qed.

Lemma expire_flow_tracked (now window : Z) (table : gmap string Flow.stats)
    (batch : list Features.t) (item : string * Flow.stats) :
  tracked item.2 ->
  expire_flow now window (table, Returned batch) item
  = (dropped now window table item,
     Returned (batch ++ vectors now window item)).
Proof.
  destruct item as [key stats]. intros Htracked.
  destruct (extract_tracked key stats Htracked) as [features Hex].
  unfold expire_flow, dropped, vectors, expired; simpl.
  destruct (Flow.last_time stats); [|now rewrite app_nil_r].
  destruct (Flow.packet_count stats <? min_packets) eqn:Hsmall; simpl;
    [now rewrite app_nil_r|].
  destruct (Py.Qgtb _ _); [|now rewrite app_nil_r].
  rewrite Hex.
  destruct features as [f|]; [reflexivity|].
  exfalso. revert Hex. unfold _extract_flow_features.
  apply Z.ltb_ge in Hsmall. unfold min_packets in Hsmall.
  destruct (Z.ltb_spec (Flow.packet_count stats) 2); [lia|].
  destruct (0 <? _); destruct (Flow.last_time stats);
    destruct (Flow.start_time stats); try discriminate;
    destruct (Py.Qgtb _ _); destruct (Np.min _); try discriminate;
    destruct (Np.max _); discriminate.
Qed.

Lemma expire_all_tracked (now window : Z) (items : list (string * Flow.stats))
    (table : gmap string Flow.stats) (batch : list Features.t) :
  Forall (fun item => tracked item.2) items ->
  foldl (expire_flow now window) (table, Returned batch) items
  = (foldl (dropped now window) table items,
     Returned (batch ++ flat_map (vectors now window) items)).
Proof.
  intros Hitems. revert table batch.
  induction Hitems as [|item items Hitem _ IH]; intros table batch;
    cbn [foldl flat_map].
  - now rewrite app_nil_r.
  - rewrite expire_flow_tracked by exact Hitem.
    rewrite IH. now rewrite <- app_assoc.
Qed.

Lemma dropped_lookup (now window : Z) (items : list (string * Flow.stats))
    (table : gmap string Flow.stats) (key : string) :
  foldl (dropped now window) table items !! key
  = if bool_decide (Exists (fun item => item.1 = key
                             /\ expired now window item.2 = true) items)
    then None else table !! key.
Proof.
  revert table. induction items as [|item items IH]; intros table;
    cbn [foldl].
  - rewrite bool_decide_eq_false_2; [reflexivity|]. now rewrite Exists_nil.
  - rewrite IH. unfold dropped.
    destruct (decide (item.1 = key /\ expired now window item.2 = true))
      as [[Hk He]|Hno].
    + rewrite (bool_decide_eq_true_2 (Exists _ (item :: items)))
        by (now left).
      subst key. rewrite He, lookup_delete_eq.
      now destruct (bool_decide (Exists _ items)).
    + destruct (decide (Exists (fun item => item.1 = key
                             /\ expired now window item.2 = true) items))
        as [Hex|Hnex].
      * rewrite !bool_decide_eq_true_2; [reflexivity| now right | exact Hex].
      * rewrite !bool_decide_eq_false_2;
          [| intros [?|?]%Exists_cons; contradiction | exact Hnex].
        destruct (expired now window item.2) eqn:He; [|reflexivity].
        apply lookup_delete_ne. intros Hk. apply Hno. now split.
Qed.

(** On a table that satisfies the invariant the drain is a filter: it
    raises nothing, drops the expired entries and collects their vectors. *)
Lemma generate_features_tracked (now window : Z)
    (table : gmap string Flow.stats) :
  map_Forall (fun _ flow => tracked flow) table ->
  _generate_features now window table
  = (foldl (dropped now window) table (map_to_list table),
     Returned (flat_map (vectors now window) (map_to_list table))).
Proof.
  intros Htable. unfold _generate_features.
  rewrite expire_all_tracked; [reflexivity|].
  apply Forall_forall. intros [key flow] Hin.
  apply elem_of_map_to_list in Hin. exact (Htable key flow Hin).
Qed.

Lemma drained_lookup (now window : Z) (table : gmap string Flow.stats)
    (key : string) :
  foldl (dropped now window) table (map_to_list table) !! key
  = match table !! key with
    | Some flow => if expired now window flow then None else Some flow
    | None => None
    end.
Proof.
  rewrite dropped_lookup.
  destruct (table !! key) as [flow|] eqn:Hflow.
  - destruct (expired now window flow) eqn:He.
    + rewrite bool_decide_eq_true_2; [reflexivity|].
      apply Exists_exists. exists (key, flow). split; [|now split].
      now apply elem_of_map_to_list.
    + rewrite bool_decide_eq_false_2; [reflexivity|].
      intros ([k flow'] & Hin & Hk & He')%Exists_exists. simpl in *. subst k.
      apply elem_of_map_to_list in Hin. congruence.
  - now destruct (bool_decide _).
Qed.

Lemma update_tracked_returns (p : Packet.info)
    (table : gmap string Flow.stats) :
  map_Forall (fun _ flow => tracked flow) table ->
  snd (_update_flow_stats p table) = Returned tt.
Proof.
  intros Htable. unfold _update_flow_stats.
  destruct (flow_key _ _ _) as [key|]; [|reflexivity].
  destruct (table !! key) as [flow|] eqn:Hflow; simpl; [|reflexivity].
  destruct (Htable key flow Hflow) as ([start Hs] & [last Hl] & _).
  now rewrite Hs, Hl.
Qed.

(** X1. On every flow table reached from the empty one by ingestions and
    drains, neither [_update_flow_stats] nor [_generate_features] raises:
    no packet is lost to the [except] of [_process_queue], and no batch. *)
Theorem reachable_table_never_raises (window : Z) (events : list event)
    (p : Packet.info) (now window' : Z) :
  snd (_update_flow_stats p (run window events)) = Returned tt
  /\ exists batch,
       snd (_generate_features now window' (run window events))
       = Returned batch.
Proof.
  pose proof (FlowProps.run_tracked window events) as Htable.
  split; [now apply update_tracked_returns|].
  rewrite generate_features_tracked by exact Htable. now eexists.
Qed.

(** X2. A drain of a reachable table removes exactly the flows that have
    at least 5 packets and have been idle for longer than the window, and
    leaves every other entry as it was. *)
Theorem drain_removes_expired_flows (window : Z) (events : list event)
    (now window' : Z) (key : string) :
  fst (_generate_features now window' (run window events)) !! key
  = match run window events !! key with
    | Some flow => if expired now window' flow then None else Some flow
    | None => None
    end.
Proof.
  rewrite generate_features_tracked by apply FlowProps.run_tracked.
  apply drained_lookup.
Qed.

Lemma vectors_key (now window : Z) (item : string * Flow.stats)
    (f : Features.t) :
  f ∈ vectors now window item ->
  expired now window item.2 = true
  /\ _extract_flow_features item.1 item.2 = Returned (Some f).
Proof.
  unfold vectors. destruct (expired now window item.2);
    [|now intros ?%elem_of_nil].
  destruct (_extract_flow_features item.1 item.2) as [[f'|]|] eqn:Hex;
    try (now intros ?%elem_of_nil).
  now intros ->%list_elem_of_singleton.
Qed.

Lemma expired_mature (now window : Z) (flow : Flow.stats) :
  expired now window flow = true -> 5 <= Flow.packet_count flow.
Proof.
  unfold expired. destruct (Flow.last_time flow); [|discriminate].
  intros [H _]%andb_prop. apply negb_true_iff, Z.ltb_ge in H. exact H.
Qed.

(** X3. The batch of a drain of a reachable table holds one feature vector
    for each removed flow and nothing else: every vector carries the key
    and the packet count, at least 5, of a flow that was expired in the
    table, and every expired flow has its vector in the batch. *)
Theorem drain_emits_expired_flows (window : Z) (events : list event)
    (now window' : Z) :
  exists batch,
    snd (_generate_features now window' (run window events)) = Returned batch
    /\ (forall f, f ∈ batch ->
          exists flow,
            run window events !! Features.flow_key f = Some flow
            /\ expired now window' flow = true
            /\ Features.packet_count f = Flow.packet_count flow
            /\ 5 <= Features.packet_count f)
    /\ (forall key flow,
          run window events !! key = Some flow ->
          expired now window' flow = true ->
          exists f, f ∈ batch /\ Features.flow_key f = key)
    /\ NoDup (Features.flow_key <$> batch).
Proof.
  pose proof (FlowProps.run_tracked window events) as Htable.
  set (table := run window events) in *.
  rewrite generate_features_tracked by exact Htable.
  eexists. split; [reflexivity|]. split; [|split].
  - intros f ([key flow] & Hin & Hf)%list_elem_of_In%in_flat_map.
    apply list_elem_of_In, vectors_key in Hf as [He Hex]. simpl in *.
    apply list_elem_of_In, elem_of_map_to_list in Hin.
    destruct (extract_counts key flow f Hex) as (-> & Hcount & _).
    exists flow. repeat split; try assumption.
    rewrite Hcount. now apply (expired_mature now window').
  - intros key flow Hflow He.
    destruct (extract_tracked key flow (Htable key flow Hflow))
      as [features Hex].
    assert (Hsome : exists f, features = Some f).
    { destruct features as [f|]; [now eexists|]. exfalso.
      apply expired_mature in He. revert Hex.
      unfold _extract_flow_features.
      destruct (Z.ltb_spec (Flow.packet_count flow) 2); [lia|].
      destruct (0 <? _); destruct (Flow.last_time flow);
        destruct (Flow.start_time flow); try discriminate;
        destruct (Py.Qgtb _ _); destruct (Np.min _); try discriminate;
        destruct (Np.max _); discriminate. }
    destruct Hsome as [f ->]. exists f. split.
    + apply list_elem_of_In, in_flat_map. exists (key, flow). split.
      * now apply list_elem_of_In, elem_of_map_to_list.
      * unfold vectors; simpl. rewrite He, Hex. now left.
    + now destruct (extract_counts key flow f Hex).
  - pose proof (NoDup_fst_map_to_list table) as Hnodup.
    induction (map_to_list table) as [|[key flow] items IH]; simpl;
      [constructor|].
    apply NoDup_cons in Hnodup as [Hkey Hnodup].
    rewrite fmap_app. apply NoDup_app. split; [|split].
    + unfold vectors; simpl. destruct (expired now window' flow);
        [|constructor].
      destruct (_extract_flow_features key flow) as [[f|]|];
        simpl; repeat constructor. now intros ?%elem_of_nil.
    + intros k Hk Hin. apply Hkey.
      apply list_elem_of_fmap in Hk as (f & Hkf0 & Hf).
      apply vectors_key in Hf as [_ Hex]; simpl in Hex.
      destruct (extract_counts key flow f Hex) as (Hfk & _).
      assert (k = key) by congruence. subst k.
      apply list_elem_of_fmap in Hin as (f' & Hkf & Hf').
      apply list_elem_of_In, in_flat_map in Hf' as ([k' flow'] & Hin' & Hv).
      apply list_elem_of_In, vectors_key in Hv as [_ Hex']; simpl in Hex'.
      destruct (extract_counts k' flow' f' Hex') as (Hk' & _).
      apply list_elem_of_fmap. exists (k', flow'). split.
      * simpl. congruence.
      * now apply list_elem_of_In.
    + exact (IH Hnodup).
Qed.

Lemma not_expired_noop (now window : Z) (items : list (string * Flow.stats))
    (table : gmap string Flow.stats) :
  Forall (fun item => expired now window item.2 = false) items ->
  foldl (dropped now window) table items = table
  /\ flat_map (vectors now window) items = [].
Proof.
  intros Hitems. induction Hitems as [|item items Hitem _ [IH1 IH2]];
    [now split|].
  cbn [foldl flat_map]. unfold dropped at 2, vectors at 1.
  rewrite Hitem. now split.
Qed.

Lemma drained_tracked (now window : Z) (table : gmap string Flow.stats) :
  map_Forall (fun _ flow => tracked flow) table ->
  map_Forall (fun _ flow => tracked flow)
             (fst (_generate_features now window table)).
Proof.
  intros Htable key flow Hflow. apply (Htable key).
  eapply lookup_weaken; [exact Hflow|].
  apply FlowProps.generate_features_submap.
Qed.

(** X4. A second drain of a reachable table at the same time finds nothing
    more: it returns the empty batch and leaves the table as the first
    drain left it. *)
Theorem drain_twice_emits_nothing (window : Z) (events : list event)
    (now window' : Z) :
  _generate_features now window'
    (fst (_generate_features now window' (run window events)))
  = (fst (_generate_features now window' (run window events)), Returned []).
Proof.
  pose proof (FlowProps.run_tracked window events) as Htable.
  set (table := run window events) in *.
  set (table' := fst (_generate_features now window' table)).
  rewrite (generate_features_tracked now window' table')
    by now apply drained_tracked.
  destruct (not_expired_noop now window' (map_to_list table') table')
    as [-> ->]; [|reflexivity].
  apply Forall_forall. intros [key flow] Hin. simpl.
  apply elem_of_map_to_list in Hin. unfold table' in Hin.
  rewrite generate_features_tracked in Hin by exact Htable.
  simpl in Hin. rewrite drained_lookup in Hin.
  destruct (table !! key) as [flow'|]; [|discriminate].
  destruct (expired now window' flow') eqn:He; [discriminate|].
  now injection Hin as <-.
Qed.







Lemma Qgtb_spec (x y : Q) : Py.Qgtb x y = true <-> (y < x)%Q.
Proof.
  unfold Py.Qgtb. rewrite negb_true_iff. split.
  - intros H. apply Qnot_le_lt. intros Hle.
    apply Qle_bool_iff in Hle. congruence.
  - intros H. destruct (Qle_bool x y) eqn:E; [|reflexivity].
    apply Qle_bool_iff in E. now apply Qlt_not_le in H.
Qed.

Lemma ratio_nonnegative (n : Z) (d : Q) :
  0 <= n -> (0 < d)%Q -> (0 <= inject_Z n / d)%Q.
Proof.
  intros Hn Hd. apply Qle_shift_div_l; [exact Hd|].
  rewrite Qmult_0_l. unfold Qle; simpl. lia.
Qed.

(** X6. The rates of a feature vector are never negative and never divide
    by zero: for a flow with non-negative counts they are the counts over
    the duration when the duration is positive, and exactly 0 when it is
    zero or negative. *)
Theorem rates_guard_the_duration (key : string) (stats : Flow.stats)
    (f : Features.t) :
  0 <= Flow.packet_count stats ->
  0 <= Flow.byte_count stats ->
  _extract_flow_features key stats = Returned (Some f) ->
  (0 <= Features.packets_per_second f)%Q
  /\ (0 <= Features.bytes_per_second f)%Q
  /\ ((Features.duration f <= 0)%Q ->
      Features.packets_per_second f = (0 # 1)%Q
      /\ Features.bytes_per_second f = (0 # 1)%Q)
  /\ ((0 < Features.duration f)%Q ->
      Features.packets_per_second f
      = (inject_Z (Flow.packet_count stats) / Features.duration f)%Q
      /\ Features.bytes_per_second f
         = (inject_Z (Flow.byte_count stats) / Features.duration f)%Q).
Proof.
  intros Hcount Hbytes. unfold _extract_flow_features.
  destruct (Flow.packet_count stats <? 2); [discriminate|].
  destruct (0 <? Py.len (Flow.intervals stats));
    (destruct (Flow.last_time stats) as [last|]; [|discriminate]);
    (destruct (Flow.start_time stats) as [start|]; [|discriminate]);
    destruct (Py.Qgtb (Py.total_seconds (last - start)) (0 # 1)) eqn:Hd;
    destruct (Np.min _); try discriminate;
    destruct (Np.max _); try discriminate;
    intros [= <-]; cbn [Features.packets_per_second
                        Features.bytes_per_second Features.duration];
    first
      [ apply Qgtb_spec in Hd;
        (split; [now apply ratio_nonnegative|]);
        (split; [now apply ratio_nonnegative|]);
        split; [intros Hle; now apply Qlt_not_le in Hd
               | intros _; split; reflexivity]
      | assert (Hle : ~ (0 < Py.total_seconds (last - start))%Q)
          by (intros Hlt; apply Qgtb_spec in Hlt; congruence);
        (split; [apply Qle_refl|]); (split; [apply Qle_refl|]);
        split; [intros _; split; reflexivity
               | intros Hlt; contradiction] ].
Qed.

(** The flow of three packets one second apart: 3 packets and 370 bytes in
    2 seconds. *)
Lemma rates_guard_the_duration_witness :
  0 <= Flow.packet_count Sample.three_packet_flow
  /\ 0 <= Flow.byte_count Sample.three_packet_flow
  /\ exists f,
       _extract_flow_features Sample.key Sample.three_packet_flow
       = Returned (Some f)
       /\ (0 <= Features.packets_per_second f)%Q
       /\ (0 <= Features.bytes_per_second f)%Q.
Proof.
  split; [discriminate|]. split; [discriminate|].
  eexists. split; [reflexivity|].
  destruct (rates_guard_the_duration Sample.key Sample.three_packet_flow _
              ltac:(discriminate) ltac:(discriminate) eq_refl)
    as (H1 & H2 & _).
  split; [exact H1 | exact H2].
Defined.

Lemma foldl_min_spec (l : list Z) (x : Z) :
  foldl Z.min x l ∈ x :: l /\ Forall (fun y => foldl Z.min x l <= y) (x :: l).
Proof.
  revert x. induction l as [|y l IH]; intros x; simpl.
  - split; [now left|]. repeat constructor. lia.
  - destruct (IH (Z.min x y)) as [Hin Hall].
    apply Forall_cons in Hall as [Hm Hall]. split.
    + apply elem_of_cons in Hin as [Hin|Hin].
      * rewrite Hin. destruct (Z.min_spec x y) as [[_ ->]|[_ ->]];
          [now left | right; now left].
      * right; now right.
    + repeat constructor; [lia | lia | exact Hall].
Qed.

Lemma foldl_max_spec (l : list Z) (x : Z) :
  foldl Z.max x l ∈ x :: l /\ Forall (fun y => y <= foldl Z.max x l) (x :: l).
Proof.
  revert x. induction l as [|y l IH]; intros x; simpl.
  - split; [now left|]. repeat constructor. lia.
  - destruct (IH (Z.max x y)) as [Hin Hall].
    apply Forall_cons in Hall as [Hm Hall]. split.
    + apply elem_of_cons in Hin as [Hin|Hin].
      * rewrite Hin. destruct (Z.max_spec x y) as [[_ ->]|[_ ->]];
          [right; now left | now left].
      * right; now right.
    + repeat constructor; [lia | lia | exact Hall].
Qed.

Lemma sumZ_bounds (l : list Z) (lo hi : Z) :
  Forall (fun y => lo <= y <= hi) l ->
  Py.len l * lo <= Py.sumZ l <= Py.len l * hi.
Proof.
  unfold Py.len. induction 1 as [|y l Hy _ IH];
    cbn [List.length Py.sumZ foldr]; [lia|].
  rewrite Nat2Z.inj_succ. unfold Py.sumZ in IH. nia.
Qed.

(** X7. The size statistics of a feature vector are taken from the packets
    of the flow: the minimum and the maximum are sizes that occur in it,
    every size lies between them, and so does the mean. *)
Theorem size_statistics_bound (key : string) (stats : Flow.stats)
    (f : Features.t) :
  _extract_flow_features key stats = Returned (Some f) ->
  Features.min_packet_size f ∈ Flow.packet_sizes stats
  /\ Features.max_packet_size f ∈ Flow.packet_sizes stats
  /\ (forall size, size ∈ Flow.packet_sizes stats ->
        Features.min_packet_size f <= size <= Features.max_packet_size f)
  /\ (inject_Z (Features.min_packet_size f) <= Features.mean_packet_size f
      <= inject_Z (Features.max_packet_size f))%Q.
Proof.
  unfold _extract_flow_features.
  destruct (Flow.packet_count stats <? 2); [discriminate|].
  destruct (0 <? Py.len (Flow.intervals stats));
    (destruct (Flow.last_time stats) as [last|]; [|discriminate]);
    (destruct (Flow.start_time stats) as [start|]; [|discriminate]);
    destruct (Py.Qgtb _ _);
    (destruct (Flow.packet_sizes stats) as [|x sizes] eqn:Hsizes;
     [discriminate|]);
    intros [= <-]; simpl;
    destruct (foldl_min_spec sizes x) as [Hmin Hlow];
    destruct (foldl_max_spec sizes x) as [Hmax Hhigh];
    (assert (Hall : Forall (fun y => foldl Z.min x sizes <= y
                                     <= foldl Z.max x sizes) (x :: sizes))
       by (rewrite Forall_forall in Hlow, Hhigh; apply Forall_forall;
           intros y Hy; split; [now apply Hlow | now apply Hhigh]));
    (split; [exact Hmin|]); (split; [exact Hmax|]);
    (split; [intros size Hsize; rewrite Forall_forall in Hall;
             now apply Hall|]);
    pose proof (sumZ_bounds (x :: sizes) _ _ Hall) as Hsum;
    (assert (Hlen : (0 < inject_Z (Py.len (x :: sizes)))%Q)
       by (unfold Qlt, Py.len; simpl; lia));
    unfold Np.meanZ;
    (split; [apply Qle_shift_div_l | apply Qle_shift_div_r];
     try exact Hlen;
     rewrite <- inject_Z_mult, <- Zle_Qle; lia).
Qed.

(** Sizes 100, 150 and 120: minimum 100, maximum 150, mean 370/3. *)
Lemma size_statistics_bound_witness :
  exists f,
    _extract_flow_features Sample.key Sample.three_packet_flow
    = Returned (Some f)
    /\ Features.min_packet_size f ∈ [100; 150; 120]
    /\ Features.max_packet_size f ∈ [100; 150; 120]
    /\ (inject_Z (Features.min_packet_size f) <= Features.mean_packet_size f
        <= inject_Z (Features.max_packet_size f))%Q.
Proof.
  eexists. split; [reflexivity|].
  destruct (size_statistics_bound Sample.key Sample.three_packet_flow _
              eq_refl) as (H1 & H2 & _ & H4).
  split; [exact H1|]. split; [exact H2 | exact H4].
Defined.

(** X8. [_update_flow_stats] touches one entry only, the one under the flow
    key of the packet; a packet that lacks an address has no flow key and
    leaves the whole table as it is. *)
Theorem update_touches_one_flow (p : Packet.info)
    (table : gmap string Flow.stats) :
  (key_of p = None -> _update_flow_stats p table = (table, Returned tt))
  /\ (Py.truthy_str (Packet.src_ip p) = false
      \/ Py.truthy_str (Packet.dst_ip p) = false -> key_of p = None)
  /\ forall key other,
       key_of p = Some key -> other <> key ->
       fst (_update_flow_stats p table) !! other = table !! other.
Proof.
  unfold key_of, _update_flow_stats. split; [|split].
  - now intros ->.
  - unfold flow_key. intros [-> | ->]; [reflexivity|].
    now rewrite Bool.andb_false_r.
  - intros key other -> Hne.
    destruct (Flow.start_time _); [destruct (Flow.last_time _)|]; simpl;
      now rewrite ?lookup_insert_ne by congruence.
Qed.

Lemma drained_batch_mature (now window : Z) (table : gmap string Flow.stats)
    (batch : list Features.t) :
  map_Forall (fun _ flow => tracked flow) table ->
  snd (_generate_features now window table) = Returned batch ->
  Forall (fun f => 5 <= Features.packet_count f) batch.
Proof.
  intros Htable. rewrite generate_features_tracked by exact Htable.
  intros [= <-]. apply Forall_forall.
  intros f ([key flow] & _ & Hf)%list_elem_of_In%in_flat_map.
  apply list_elem_of_In, vectors_key in Hf as [He Hex]. simpl in *.
  destruct (extract_counts key flow f Hex) as (_ & -> & _).
  now apply (expired_mature now window).
Qed.

Lemma process_packet_settled (now : Z) (self : state) (p : Packet.info) :
  settled self ->
  settled (process_packet now self p)
  /\ window_size (process_packet now self p) = window_size self
  /\ flow_stats (process_packet now self p)
     = step (window_size self)
         (step (window_size self) (flow_stats self) (Ingest p)) (Drain now).
Proof.
  intros [Htable Hqueue]. unfold process_packet, step.
  pose proof (update_tracked_returns p _ Htable) as Hret.
  pose proof (FlowProps.update_tracked p _ Htable) as Htable'.
  destruct (_update_flow_stats p (flow_stats self)) as [table r].
  simpl in Hret, Htable'. subst r. cbn [fst snd].
  pose proof (drained_tracked now (window_size self) table Htable') as Hd.
  pose proof (drained_batch_mature now (window_size self) table) as Hb.
  destruct (_generate_features now (window_size self) table)
    as [table' [[|f batch]|exn]]; simpl in *;
    (split; [split; [exact Hd|] | split; reflexivity]);
    try exact Hqueue.
  apply Forall_app. split; [exact Hqueue|].
  apply Forall_cons. split; [|constructor].
  split; [discriminate|]. now apply Hb.
Qed.

(** X9. Whatever packets [_process_queue] is given, the flow table it
    holds is the one reached by ingesting each packet and draining at the
    time it was taken, and the feature queue never holds an empty batch or
    a vector of a flow with fewer than 5 packets. *)
Theorem process_queue_feeds_mature_flows (arrivals : list (Z * Packet.info)) :
  flow_stats (_process_queue init arrivals)
  = run 60 (flat_map (fun a => [Ingest a.2; Drain a.1]) arrivals)
  /\ Forall (fun batch =>
               batch <> []
               /\ Forall (fun f => 5 <= Features.packet_count f) batch)
            (feature_queue (_process_queue init arrivals)).
Proof.
  assert (H : forall self,
            settled self ->
            settled (_process_queue self arrivals)
            /\ flow_stats (_process_queue self arrivals)
               = foldl (step (window_size self)) (flow_stats self)
                   (flat_map (fun a => [Ingest a.2; Drain a.1]) arrivals)).
  { induction arrivals as [|[now p] arrivals IH]; intros self Hself;
      [now split|].
    destruct (process_packet_settled now self p Hself) as (Hs & Hw & Ht).
    destruct (IH (process_packet now self p) Hs) as [Hs' Ht'].
    unfold _process_queue in *. cbn [foldl flat_map app fst snd].
    split; [exact Hs'|]. rewrite Ht', Hw, Ht. reflexivity. }
  destruct (H init) as [[_ Hqueue] Htable].
  - split; [apply map_Forall_empty | constructor].
  - split; [exact Htable | exact Hqueue].
Qed.

(** X10. Ingesting a packet that has a flow key into a reachable table
    counts it in the flow of that key, new or not: one packet more, its
    length added to the bytes and appended to the sizes, and its time as
    the last-seen time. *)
Theorem ingest_counts_packet (window : Z) (events : list event)
    (p : Packet.info) (key : string) :
  key_of p = Some key ->
  exists flow',
    fst (_update_flow_stats p (run window events)) !! key = Some flow'
    /\ Flow.last_time flow' = Some (Packet.timestamp p)
    /\ Flow.packet_count flow'
       = Flow.packet_count (default Flow.fresh (run window events !! key)) + 1
    /\ Flow.byte_count flow'
       = Flow.byte_count (default Flow.fresh (run window events !! key))
         + Packet.length p
    /\ Flow.packet_sizes flow'
       = Flow.packet_sizes (default Flow.fresh (run window events !! key))
         ++ [Packet.length p].
Proof.
  pose proof (FlowProps.run_tracked window events) as Htable.
  set (table := run window events) in *.
  unfold key_of, _update_flow_stats. intros ->.
  destruct (table !! key) as [flow|] eqn:Hflow; simpl.
  - destruct (Htable key flow Hflow) as ([start Hs] & [last Hl] & _).
    rewrite Hs, Hl; simpl. rewrite lookup_insert_eq. now eexists.
  - rewrite lookup_insert_eq. now eexists.
Qed.

(** A first packet, then its answer. *)
Lemma ingest_counts_packet_witness :
  let events := [Ingest (Sample.forth 0 100)] in
  key_of (Sample.back 1 150) = Some Sample.key
  /\ exists flow',
       fst (_update_flow_stats (Sample.back 1 150) (run 60 events))
         !! Sample.key = Some flow'
       /\ Flow.last_time flow' = Some 1000000
       /\ Flow.packet_count flow' = 2
       /\ Flow.byte_count flow' = 250
       /\ Flow.packet_sizes flow' = [100; 150].
Proof.
  split; [reflexivity|].
  destruct (ingest_counts_packet 60 [Ingest (Sample.forth 0 100)]
              (Sample.back 1 150) Sample.key eq_refl)
    as (flow' & H1 & H2 & H3 & H4 & H5).
  exists flow'. split; [exact H1|]. split; [exact H2|].
  split; [rewrite H3; vm_compute; reflexivity|].
  split; [rewrite H4; vm_compute; reflexivity|].
  rewrite H5. vm_compute; reflexivity.
Defined.

End ExtractorFacts.

(** ** Rule matching *)

Module RuleFacts.

Import RulesEngine RuleFilter.

(** X11. A rule fires for a packet exactly when the packet passes its
    address and protocol filters and the rule either has no compiled
    pattern, or has one that is found in the payload of the packet, which
    must be there; the alert is then the one built from the rule and the
    packet. *)
Theorem rule_fires_iff (rule : Rule.t) (p : Packet.info) (raw : Packet.raw)
    (a : SignatureAlert.t) :
  check_rule p raw rule = Some a <->
  filters_pass rule p
  /\ (Rule.compiled_pattern rule = None
      \/ exists search payload,
           Rule.compiled_pattern rule = Some search
           /\ Packet.raw_load raw = Some payload
           /\ search payload = true)
  /\ a = alert p rule.
Proof.
  split.
  - unfold check_rule.
    destruct (_ && _ && _) eqn:Hs; [discriminate|].
    destruct (_ && _ && _) eqn:Hd in |- *; [discriminate|].
    destruct (_ && _ && _) eqn:Hp in |- *; [discriminate|].
    apply RuleProps.filter_test in Hs, Hd, Hp.
    intros Hfire. split; [now repeat split|]. revert Hfire.
    destruct (Rule.compiled_pattern rule) as [search|];
      [|intros [= <-]; split; [now left | reflexivity]].
    destruct (Packet.raw_load raw) as [payload|]; [|discriminate].
    destruct (search payload) eqn:Hfound; [|discriminate].
    intros [= <-]. split; [|reflexivity].
    right. now exists search, payload.
  - intros ((Hs & Hd & Hp) & Hpat & ->). unfold check_rule.
    apply RuleProps.filter_test in Hs, Hd, Hp. rewrite Hs, Hd, Hp.
    destruct Hpat as [-> | (search & payload & -> & -> & ->)]; reflexivity.
Qed.



(** X13. Adding a rule to a loaded rule set gives the rule set that loading
    the file with the rule at its end gives, when the rules compile; a
    rule whose pattern does not compile makes [add_rule] raise. *)
Theorem add_rule_extends_the_load (rule_defs loaded : list Rule.t)
    (rule : Rule.t) :
  Forall2 loads_as rule_defs loaded ->
  (forall rule', loads_as rule rule' ->
     add_rule rule (fst (load_rules (Sequence rule_defs) []))
     = Returned (fst (load_rules (Sequence (rule_defs ++ [rule])) []))
     /\ fst (load_rules (Sequence (rule_defs ++ [rule])) [])
        = loaded ++ [rule'])
  /\ (malformed rule ->
      exists exn,
        add_rule rule (fst (load_rules (Sequence rule_defs) []))
        = Raised exn).
Proof.
  intros Hdefs. split.
  - intros rule' Hrule.
    assert (Hall : Forall2 loads_as (rule_defs ++ [rule]) (loaded ++ [rule']))
      by (apply Forall2_app; [exact Hdefs | now repeat constructor]).
    simpl.
    rewrite (RuleProps.load_loop_well_formed _ _ [] Hdefs).
    rewrite (RuleProps.load_loop_well_formed _ _ [] Hall).
    simpl. unfold add_rule. unfold loads_as in Hrule. now rewrite Hrule.
  - intros [exn Hbad]. exists exn. unfold add_rule. now rewrite Hbad.
Qed.

(** The rule on source 10.0.0.1 loaded, the same rule added. *)
Lemma add_rule_extends_the_load_witness :
  Forall2 loads_as [Sample.from_host] [Sample.from_host]
  /\ loads_as Sample.from_host Sample.from_host
  /\ add_rule Sample.from_host
       (fst (load_rules (Sequence [Sample.from_host]) []))
     = Returned (fst (load_rules
                        (Sequence ([Sample.from_host] ++ [Sample.from_host]))
                        [])).
Proof.
  assert (Hdefs : Forall2 loads_as [Sample.from_host] [Sample.from_host])
    by (repeat constructor).
  split; [exact Hdefs|]. split; [reflexivity|].
  destruct (add_rule_extends_the_load [Sample.from_host] [Sample.from_host]
              Sample.from_host Hdefs) as [Hadd _].
  exact (proj1 (Hadd Sample.from_host eq_refl)).
Defined.

(** X14. A captured packet without an IP layer is no part of any flow, and
    no address or protocol filter holds it back: it leaves the flow table
    as it is, and every rule without a compiled pattern fires for it. *)
Theorem packet_without_ip_layer (now : Z) (packet : Scapy.packet)
    (table : gmap string Flow.stats) (rules : list Rule.t) :
  Scapy.ip packet = None ->
  FeatureExtractor._update_flow_stats
    (PacketCapture._extract_basic_features now packet) table
  = (table, Returned tt)
  /\ forall rule,
       rule ∈ rules ->
       Rule.compiled_pattern rule = None ->
       alert (PacketCapture._extract_basic_features now packet) rule
       ∈ _check_rules rules
           (PacketCapture._extract_basic_features now packet).
Proof.
  intros Hip. split.
  - unfold FeatureExtractor._update_flow_stats; simpl. now rewrite Hip.
  - intros rule Hin Hpat. unfold _check_rules; simpl.
    apply list_elem_of_omap. exists rule. split; [exact Hin|].
    apply RuleProps.filter_only_fires; [exact Hpat|].
    unfold filters_pass, passes; simpl. rewrite Hip; simpl.
    repeat split; right; now left.
Qed.

(** An ARP frame of 42 bytes and the rule on source 10.0.0.1. *)
Lemma packet_without_ip_layer_witness :
  let frame := {| Scapy.ip := None; Scapy.raw := None; Scapy.size := 42 |} in
  Scapy.ip frame = None
  /\ FeatureExtractor._update_flow_stats
       (PacketCapture._extract_basic_features 0 frame) ∅
     = (∅, Returned tt)
  /\ alert (PacketCapture._extract_basic_features 0 frame) Sample.from_host
     ∈ _check_rules [Sample.from_host]
         (PacketCapture._extract_basic_features 0 frame).
Proof.
  split; [reflexivity|].
  destruct (packet_without_ip_layer 0
              {| Scapy.ip := None; Scapy.raw := None; Scapy.size := 42 |}
              ∅ [Sample.from_host] eq_refl) as [Hflow Hrules].
  split; [exact Hflow|].
  apply Hrules; [now left | reflexivity].
Defined.

End RuleFacts.

(** ** The anomaly engine over many batches *)

Module AnomalyFacts.

Import MLDetectionEngine.

(** With a model and out of learning mode, [store] fits nothing. *)
Lemma store_keeps_model (self : engine) (batch : list Features.t)
    (m : isolation_forest) :
  learning_mode self = false ->
  model self = Some m ->
  model (store self batch) = Some m
  /\ scaler (store self batch) = scaler self
  /\ learning_mode (store self batch) = false.
Proof.
  intros Hmode Hmodel. unfold store.
  destruct (_ <? _); [|now repeat split].
  cbn [model learning_mode training_data]. rewrite Hmodel, Hmode.
  rewrite Bool.andb_false_r. now repeat split.
Qed.

(** [store] only appends to the training data. *)
Lemma store_appends (self : engine) (batch : list Features.t) :
  training_data (store self batch) = training_data self
  \/ training_data (store self batch) = training_data self ++ batch
     /\ Py.len (training_data self) < max_training_samples self.
Proof.
  unfold store. destruct (Z.ltb_spec (Py.len (training_data self))
                            (max_training_samples self)); [|now left].
  right. split; [|assumption]. now destruct (_ && _).
Qed.

Section Scoring.

Variable predict : isolation_forest -> standard_scaler -> Features.t -> Z.
Variable decision_function :
  isolation_forest -> standard_scaler -> Features.t -> Q.

Abbreviation step := (detection_step predict decision_function).
Abbreviation loop := (_detection_loop predict decision_function).
Abbreviation run := (detection_run predict decision_function).

Lemma loop_cons (self : engine) (batch : list Features.t)
    (batches : list (list Features.t)) :
  loop self (batch :: batches) = loop (fst (step self batch)) batches.
Proof. reflexivity. Qed.

(** X15. Out of learning mode a model is fitted at most once: an engine
    that has a model keeps that model and its scaler through every
    further batch, however many vectors it stores. *)
Theorem model_is_never_refitted (self : engine) (m : isolation_forest)
    (batches : list (list Features.t)) :
  learning_mode self = false ->
  model self = Some m ->
  model (loop self batches) = Some m
  /\ scaler (loop self batches) = scaler self.
Proof.
  revert self. induction batches as [|batch batches IH];
    intros self Hmode Hmodel; [now split|].
  rewrite loop_cons, AnomalyProps.step_engine.
  destruct batch as [|f batch]; [now apply IH|].
  destruct (store_keeps_model self (f :: batch) m Hmode Hmodel)
    as (Hm & Hs & Hl).
  destruct (IH (store self (f :: batch)) Hl Hm) as [IHm IHs].
  split; [exact IHm | now rewrite IHs].
Qed.

(** X16. An engine constructed from a stored model, out of learning mode,
    never emits an anomaly alert and never fits a model: the constructor
    leaves it without a scaler, the stored model keeps a new one from
    being fitted, and scoring without a scaler raises and is caught. *)
Theorem stored_model_never_alerts (model_path : string)
    (batches : list (list Features.t)) :
  snd (run (new (Some model_path) false) batches) = []
  /\ model (fst (run (new (Some model_path) false) batches))
     = Some (Loaded model_path)
  /\ scaler (fst (run (new (Some model_path) false) batches)) = None.
Proof.
  assert (H : forall self alerts,
            learning_mode self = false ->
            model self = Some (Loaded model_path) ->
            scaler self = None ->
            let result :=
              foldl (fun acc batch =>
                       ((step acc.1 batch).1, acc.2 ++ (step acc.1 batch).2))
                    (self, alerts) batches in
            snd result = alerts
            /\ model (fst result) = Some (Loaded model_path)
            /\ scaler (fst result) = None).
  { induction batches as [|batch batches IH];
      intros self alerts Hmode Hmodel Hscaler; [now repeat split|].
    cbn [foldl fst snd].
    destruct batch as [|f batch].
    - simpl. rewrite app_nil_r. now apply IH.
    - destruct (store_keeps_model self (f :: batch) _ Hmode Hmodel)
        as (Hm & Hs & Hl).
      rewrite Hscaler in Hs.
      assert (Hnone : (step self (f :: batch)).2 = []).
      { unfold detection_step, _detect_anomalies; simpl.
        rewrite Hm, Hs. now destruct (_ && _). }
      rewrite Hnone, app_nil_r. now apply IH. }
  apply (H (new (Some model_path) false) []); reflexivity.
Qed.

(** X17. In learning mode the engine never scores: no batch yields an
    alert, with or without a model; and every batch stored once the
    training data hold 1,000 vectors or more has the model fitted again,
    on all of them. *)
Theorem learning_mode_only_trains (self : engine)
    (batches : list (list Features.t)) :
  learning_mode self = true ->
  snd (run self batches) = []
  /\ forall f batch,
       Py.len (training_data self) < max_training_samples self ->
       1000 <= Py.len (training_data self) + Py.len (f :: batch) ->
       model (fst (step self (f :: batch)))
       = Some (Fitted (training_data self ++ f :: batch)).
Proof.
  intros Hmode. split.
  - assert (H : forall self alerts,
              learning_mode self = true ->
              snd (foldl (fun acc batch =>
                            ((step acc.1 batch).1,
                             acc.2 ++ (step acc.1 batch).2))
                         (self, alerts) batches) = alerts).
    { clear self Hmode. induction batches as [|batch batches IH];
        intros self alerts Hmode; [reflexivity|].
      cbn [foldl fst snd].
      assert (Hnone : (step self batch).2 = []).
      { destruct batch as [|f batch]; [reflexivity|].
        unfold detection_step; cbn [snd].
        destruct (AnomalyProps.store_settings self (f :: batch)) as [-> _].
        rewrite Hmode. now rewrite Bool.andb_false_r. }
      rewrite Hnone, app_nil_r. apply IH.
      rewrite AnomalyProps.step_engine.
      destruct batch as [|f batch]; [exact Hmode|].
      destruct (AnomalyProps.store_settings self (f :: batch)) as [-> _].
      exact Hmode. }
    now apply H.
  - intros f batch Hroom Hfull. cbn [detection_step fst]. unfold store.
    apply Z.ltb_lt in Hroom. rewrite Hroom.
    cbn [training_data learning_mode model]. rewrite Hmode.
    rewrite AnomalyProps.len_app. unfold min_training_samples.
    apply Z.leb_le in Hfull. rewrite Hfull, Bool.orb_true_r.
    reflexivity.
Qed.

(** X18. The training data only grow, by whole batches at their end, and
    stop growing at the capacity: when no batch has more than [n]
    vectors they never hold more than [max_training_samples - 1 + n], and
    an engine whose training data have reached the capacity is left as it
    is by every batch. *)
Theorem training_data_growth (self : engine)
    (batches : list (list Features.t)) (n : Z) :
  Forall (fun batch => Py.len batch <= n) batches ->
  Py.len (training_data self) <= max_training_samples self - 1 + n ->
  Py.len (training_data (loop self batches))
    <= max_training_samples self - 1 + n
  /\ training_data self `prefix_of` training_data (loop self batches)
  /\ (max_training_samples self <= Py.len (training_data self) ->
      loop self batches = self).
Proof.
  intros Hbatches. revert self.
  induction Hbatches as [|batch batches Hbatch _ IH]; intros self Hlen.
  - now repeat split.
  - rewrite loop_cons, AnomalyProps.step_engine.
    destruct batch as [|f batch]; [now apply IH|].
    set (b := f :: batch) in *.
    destruct (AnomalyProps.store_settings self b) as [_ Hmax].
    destruct (store_appends self b) as [Hsame | [Hmore Hroom]].
    + destruct (IH (store self b)) as (H1 & H2 & H3);
        [rewrite Hmax, Hsame; exact Hlen|].
      rewrite Hmax, Hsame in *. repeat split; try assumption.
      intros Hfull. rewrite AnomalyProps.store_at_capacity in * by exact Hfull.
      now apply H3.
    + destruct (IH (store self b)) as (H1 & H2 & H3);
        [rewrite Hmax, Hmore, AnomalyProps.len_app; lia|].
      rewrite Hmax, Hmore in *. repeat split.
      * exact H1.
      * etransitivity; [|exact H2]. now apply prefix_app_r.
      * intros Hfull. lia.
Qed.

(** X19. [_detect_anomalies] emits one alert for each row that the model
    predicts as an outlier (-1), in the order of the batch, with the row
    as its features, the key and timestamp of the row, and the magnitude
    of the score as confidence; without a model or a scaler it emits
    nothing. *)
Theorem alerts_are_the_outliers (self : engine) (df : list Features.t) :
  (forall m s,
     model self = Some m -> scaler self = Some s ->
     AnomalyAlert.features <$> _detect_anomalies predict decision_function
                                 self df
     = filter (fun row => predict m s row = -1) df
     /\ Forall (fun a =>
                  AnomalyAlert.kind a = ANOMALY
                  /\ AnomalyAlert.flow_key a
                     = Features.flow_key (AnomalyAlert.features a)
                  /\ AnomalyAlert.timestamp a
                     = Features.timestamp (AnomalyAlert.features a)
                  /\ (AnomalyAlert.confidence a
                      == Qabs (decision_function m s
                                 (AnomalyAlert.features a)))%Q
                  /\ (0 <= AnomalyAlert.confidence a)%Q)
               (_detect_anomalies predict decision_function self df))
  /\ (model self = None \/ scaler self = None ->
      _detect_anomalies predict decision_function self df = []).
Proof.
  split.
  - intros m s Hm Hs. unfold _detect_anomalies. rewrite Hm, Hs.
    induction df as [|row df [IH1 IH2]]; [split; [reflexivity|constructor]|].
    csimpl. rewrite filter_cons.
    destruct (Z.eqb_spec (predict m s row) (-1)) as [Hout|Hin].
    + rewrite decide_True by exact Hout. csimpl. rewrite IH1.
      split; [reflexivity|]. constructor; [|exact IH2].
      simpl. repeat split; try reflexivity. apply Qabs_nonneg.
    + rewrite decide_False by exact Hin. now split.
  - unfold _detect_anomalies. intros [-> | ->]; [reflexivity|].
    now destruct (model self).
Qed.

End Scoring.

(** An engine with a stored model and two batches. *)
Lemma model_is_never_refitted_witness :
  let score :=
    fun (_ : isolation_forest) (_ : standard_scaler) (_ : Features.t) => 1 in
  let margin :=
    fun (_ : isolation_forest) (_ : standard_scaler) (_ : Features.t) =>
      (1 # 10)%Q in
  let self := new (Some "models/ids_model.pkl") false in
  learning_mode self = false
  /\ model self = Some (Loaded "models/ids_model.pkl")
  /\ model (_detection_loop score margin self
              [[Sample.vector]; [Sample.vector; Sample.vector]])
     = Some (Loaded "models/ids_model.pkl").
Proof.
  intros score margin self.
  split; [reflexivity|]. split; [reflexivity|].
  exact (proj1 (model_is_never_refitted score margin self _
                  [[Sample.vector]; [Sample.vector; Sample.vector]]
                  eq_refl eq_refl)).
Defined.

(** A new engine in learning mode and a batch. *)
Lemma learning_mode_only_trains_witness :
  let score :=
    fun (_ : isolation_forest) (_ : standard_scaler) (_ : Features.t) =>
      (-1) in
  let margin :=
    fun (_ : isolation_forest) (_ : standard_scaler) (_ : Features.t) =>
      (1 # 10)%Q in
  learning_mode (init true) = true
  /\ snd (detection_run score margin (init true) [[Sample.vector]]) = [].
Proof.
  intros score margin. split; [reflexivity|].
  exact (proj1 (learning_mode_only_trains score margin (init true)
                  [[Sample.vector]] eq_refl)).
Defined.

(** 10,000 batches of one vector into a new engine: never more than
    10,000 vectors. *)
Lemma training_data_growth_witness :
  let score :=
    fun (_ : isolation_forest) (_ : standard_scaler) (_ : Features.t) => 1 in
  let margin :=
    fun (_ : isolation_forest) (_ : standard_scaler) (_ : Features.t) =>
      (1 # 10)%Q in
  let batches := Sample.singles Sample.vector 10000 in
  Forall (fun batch => Py.len batch <= 1) batches
  /\ Py.len (training_data (init false))
     <= max_training_samples (init false) - 1 + 1
  /\ Py.len (training_data (_detection_loop score margin (init false) batches))
     <= max_training_samples (init false) - 1 + 1.
Proof.
  intros score margin batches.
  assert (H1 : Forall (fun batch => Py.len batch <= 1) batches).
  { apply Forall_forall. intros b Hb. apply list_elem_of_In in Hb.
    apply repeat_spec in Hb. subst b. discriminate. }
  assert (H2 : Py.len (training_data (init false))
               <= max_training_samples (init false) - 1 + 1)
    by discriminate.
  split; [exact H1|]. split; [exact H2|].
  exact (proj1 (training_data_growth score margin (init false) batches 1
                  H1 H2)).
Defined.

(** A model that marks the flows of exactly 5 packets as outliers. *)
Lemma alerts_are_the_outliers_witness :
  let score :=
    fun (_ : isolation_forest) (_ : standard_scaler) (row : Features.t) =>
      if Features.packet_count row =? 5 then -1 else 1 in
  let margin :=
    fun (_ : isolation_forest) (_ : standard_scaler) (_ : Features.t) =>
      (-1 # 10)%Q in
  let self := _train_model (init false) in
  model self = Some (Fitted [])
  /\ scaler self = Some (FittedScaler [])
  /\ AnomalyAlert.features <$> _detect_anomalies score margin self
                                 [Sample.vector]
     = filter (fun row => score (Fitted []) (FittedScaler []) row = -1)
              [Sample.vector].
Proof.
  intros score margin self.
  split; [reflexivity|]. split; [reflexivity|].
  destruct (alerts_are_the_outliers score margin self [Sample.vector])
    as [H _].
  exact (proj1 (H (Fitted []) (FittedScaler []) eq_refl eq_refl)).
Defined.

End AnomalyFacts.

(** ** The alerts the query service keeps and returns *)

Module ApiFacts.

Import IDSApiService.

(** [l[-n:]] for a positive [n]: the last [n] elements. *)
Lemma slice_last {A} (l : list A) (n : Z) :
  0 < n ->
  Py.slice_from l (- n) = drop (List.length l - Z.to_nat n) l.
Proof.
  intros Hn. unfold Py.slice_from, Py.len.
  destruct (Z.ltb_spec (- n) 0); [|lia]. f_equal. lia.
Qed.

(** [l[-0:]] is [l[0:]]: the whole list. *)
Lemma slice_zero {A} (l : list A) : Py.slice_from l (- 0) = l.
Proof.
  unfold Py.slice_from, Py.len. simpl.
  replace (Z.to_nat (Z.min 0 _)) with 0%nat by lia. apply drop_0.
Qed.

Lemma slice_suffix {A} (l : list A) (start : Z) :
  Py.slice_from l start `suffix_of` l.
Proof. apply suffix_drop. Qed.

Lemma last_snoc {A} (l : list A) (a : A) (n : nat) :
  (0 < n)%nat ->
  drop (List.length (drop (List.length l - n) l ++ [a]) - n)
       (drop (List.length l - n) l ++ [a])
  = drop (List.length (l ++ [a]) - n) (l ++ [a]).
Proof.
  intros Hn. rewrite !length_app, length_drop. simpl.
  destruct (decide (List.length l < n)%nat) as [Hshort|Hlong].
  - replace (List.length l - n)%nat with 0%nat by lia.
    rewrite drop_0. f_equal. lia.
  - rewrite !drop_app_le by (rewrite ?length_drop; lia).
    rewrite drop_drop. do 2 f_equal. lia.
Qed.

Section Alerts.

Variable alert : Type.
Variable alert_type_of : alert -> option string.
Variable timestamp_of : alert -> string.
Variable fromisoformat : string -> option Z.

Abbreviation answer_to :=
  (get_alerts alert alert_type_of timestamp_of fromisoformat).
Abbreviation selected :=
  (IDSApiService.selected alert alert_type_of timestamp_of fromisoformat).

Lemma collect_last (seen : list alert) (a : alert) :
  collect alert (Py.slice_from seen (- max_alerts)) a
  = Py.slice_from (seen ++ [a]) (- max_alerts).
Proof.
  unfold collect, max_alerts. rewrite !slice_last by lia.
  set (n := Z.to_nat 1000).
  assert (Hn : (0 < n)%nat) by (unfold n; lia).
  rewrite <- (last_snoc seen a n Hn).
  set (kept := drop (List.length seen - n) seen ++ [a]).
  destruct (Z.ltb_spec 1000 (Py.len kept)) as [Hlong|Hshort];
    [reflexivity|].
  unfold Py.len in Hshort.
  replace (List.length kept - n)%nat with 0%nat by (unfold n; lia).
  now rewrite drop_0.
Qed.

(** X20. The service keeps the latest 1,000 alerts: after any number of
    alerts taken from the queue, [recent_alerts] is the last 1,000 of them
    (all of them while they are fewer), in the order of arrival. *)
Theorem recent_alerts_are_the_latest (alert_queue : list alert) :
  _collect_alerts alert [] alert_queue
  = Py.slice_from alert_queue (- max_alerts)
  /\ Py.len (_collect_alerts alert [] alert_queue) <= max_alerts
  /\ _collect_alerts alert [] alert_queue `suffix_of` alert_queue.
Proof.
  assert (H : forall queue seen,
            _collect_alerts alert (Py.slice_from seen (- max_alerts)) queue
            = Py.slice_from (seen ++ queue) (- max_alerts)).
  { induction queue as [|a queue IH]; intros seen.
    - now rewrite app_nil_r.
    - unfold _collect_alerts in *. cbn [foldl].
      rewrite collect_last, IH. now rewrite <- app_assoc. }
  assert (Heq : _collect_alerts alert [] alert_queue
                = Py.slice_from alert_queue (- max_alerts))
    by (apply (H alert_queue [])).
  split; [exact Heq|]. rewrite Heq. split; [|apply slice_suffix].
  unfold max_alerts. rewrite slice_last by lia.
  unfold Py.len. rewrite length_drop. lia.
Qed.

Lemma not_before_sublist (since_dt : Z) (l kept : list alert) :
  not_before alert timestamp_of fromisoformat since_dt l = Some kept ->
  kept `sublist_of` l.
Proof.
  revert kept. induction l as [|a l IH]; intros kept; simpl.
  - intros [= <-]. constructor.
  - destruct (fromisoformat (timestamp_of a)); [|discriminate].
    destruct (not_before _ _ _ _ l) as [kept'|]; [|discriminate].
    intros [= <-]. destruct (_ <=? _).
    + now apply sublist_skip, IH.
    + now apply sublist_cons, IH.
Qed.

Lemma answer_shape (recent_alerts : list alert) (alert_type : option string)
    (limit : option Z) (since : option string) :
  answer_to recent_alerts alert_type limit since
  = {| alerts := Py.slice_from (selected recent_alerts alert_type since)
                   (- default 100 limit);
       total := Py.len (selected recent_alerts alert_type since) |}.
Proof.
  unfold IDSApiService.selected, get_alerts. cbn [alerts default].
  now rewrite slice_zero.
Qed.

(** X21. The limit of a query only cuts the answer: [total] counts every
    alert that passes the filters whatever the limit, the alerts returned
    are the last ones of these, [limit] of them (100 by default) or all
    when there are fewer, in the order of arrival; and a limit of 0
    returns all of them, not none. *)
Theorem limit_keeps_the_latest (recent_alerts : list alert)
    (alert_type : option string) (limit : option Z) (since : option string) :
  let everything := selected recent_alerts alert_type since in
  let answer := answer_to recent_alerts alert_type limit since in
  total alert answer = Py.len everything
  /\ alerts alert answer `suffix_of` everything
  /\ everything `sublist_of` recent_alerts
  /\ (0 < default 100 limit ->
      Py.len (alerts alert answer)
      = Z.min (default 100 limit) (total alert answer))
  /\ (limit = Some 0 -> alerts alert answer = everything).
Proof.
  cbv zeta. rewrite answer_shape. cbn [alerts total].
  split; [reflexivity|]. split; [apply slice_suffix|]. split; [|split].
  - unfold IDSApiService.selected, get_alerts. cbn [alerts].
    rewrite slice_zero.
    assert (Htype : (if Py.truthy_str alert_type
                     then filter (fun a => alert_type_of a = alert_type)
                                 recent_alerts
                     else recent_alerts) `sublist_of` recent_alerts)
      by (destruct (Py.truthy_str alert_type);
          [apply sublist_filter | reflexivity]).
    destruct (Py.truthy_str since); [|exact Htype].
    destruct (fromisoformat _) as [since_dt|]; [|exact Htype].
    destruct (not_before _ _ _ since_dt _) as [kept|] eqn:Hkept;
      [|exact Htype].
    simpl. etransitivity; [|exact Htype].
    exact (not_before_sublist _ _ _ Hkept).
  - intros Hpos. rewrite slice_last by exact Hpos.
    unfold Py.len. rewrite length_drop. lia.
  - intros ->. apply slice_zero.
Qed.



End Alerts.

(** Three alerts and a limit of 2. *)
Lemma limit_keeps_the_latest_witness :
  let recent := [("SIGNATURE", "a"); ("ANOMALY", "bb"); ("SIGNATURE", "ccc")] in
  let answer :=
    get_alerts (string * string) Sample.kind Sample.time Sample.read
      recent None (Some 2) None in
  0 < default 100 (Some 2)
  /\ Py.len (alerts (string * string) answer)
     = Z.min (default 100 (Some 2)) (total (string * string) answer)
  /\ alerts (string * string) answer
     = [("ANOMALY", "bb"); ("SIGNATURE", "ccc")].
Proof.
  intros recent answer.
  split; [reflexivity|]. split; [|reflexivity].
  apply (limit_keeps_the_latest (string * string) Sample.kind Sample.time
           Sample.read recent None (Some 2) None).
  reflexivity.
Defined.



End ApiFacts.
